(** * User centre: accounts, sessions and bearer tokens

    A shallow embedding of the user-centre service:
    - [services/user-center/middleware/auth.jwt.js]  ([authJWT], [authorizeRoles]),
    - [services/user-center/middleware/timestamp.middleware.js],
    - [services/user-center/models/user.model.js]    (class [UserModel]),
    - [services/user-center/routes/auth.js]          (register, login, logout, me),
    - [services/user-center/routes/user.js]          (the user and product
      routes, and the order in which the [PUT] routes are registered).

    The Prisma tables are lists of rows in insertion order, every asynchronous
    function is a computation over the database that either returns or throws,
    and the two external primitives (bcrypt and the JWS encoding of
    jsonwebtoken) are the operations of a type class.  Strings are given by
    their UTF-8 bytes. *)

From Stdlib Require Import ZArith String List Bool Lia Ascii.
Import ListNotations.

Open Scope string_scope.
Open Scope Z_scope.

(* ================================================================== *)
(** * JavaScript values that reach the handlers *)

Module Js.

(** A field of a JSON request body as the handlers see it: absent
    ([undefined]), JSON [null], or a string. *)
Inductive value : Type :=
| undefined
| null
| str (s : string).

(** [!!v] *)
Definition truthy (v : value) : bool :=
  match v with
  | str s => negb (String.eqb s "")
  | _ => false
  end.

(** [v !== undefined] *)
Definition defined (v : value) : bool :=
  match v with
  | undefined => false
  | _ => true
  end.

(** [v === 'lit'] *)
Definition is_str (v : value) (lit : string) : bool :=
  match v with
  | str s => String.eqb s lit
  | _ => false
  end.

(** [v || d] where [d] is a string. *)
Definition or_else (v : value) (d : string) : string :=
  match v with
  | str s => if String.eqb s "" then d else s
  | _ => d
  end.

(** [s.length]: the number of UTF-16 code units of a string that is given
    by its UTF-8 bytes.  A character of one, two or three bytes is one
    unit, a character of four bytes is a surrogate pair; a continuation
    byte counts for nothing. *)
Fixpoint length (s : string) : nat :=
  match s with
  | String c r =>
      let n := nat_of_ascii c in
      ((if n <? 128 then 1
        else if n <? 192 then 0
        else if n <? 240 then 1
        else 2) + length r)%nat
  | EmptyString => 0%nat
  end.

(** A nullable text column read back into JavaScript. *)
Definition of_column (c : option string) : value :=
  match c with
  | Some s => str s
  | None => null
  end.

End Js.

(** Thrown JavaScript exceptions: [error.name] and [error.message]. *)
Module Exn.

Record t : Type := mk { name : string; message : string }.

(** [new Error(msg)] *)
Definition Error (msg : string) : t := mk "Error" msg.

(** Evaluating an identifier that is not in scope. *)
Definition ReferenceError (ident : string) : t :=
  mk "ReferenceError" (ident ++ " is not defined").

Definition TypeError (msg : string) : t := mk "TypeError" msg.

(** jsonwebtoken's two verification failures. *)
Definition JsonWebTokenError (msg : string) : t := mk "JsonWebTokenError" msg.
Definition TokenExpiredError : t := mk "TokenExpiredError" "jwt expired".

(** A rejected Prisma query. *)
Definition PrismaError (msg : string) : t :=
  mk "PrismaClientKnownRequestError" msg.

End Exn.

(* ================================================================== *)
(** * Strings: digits, [parseInt], [String.prototype.replace] *)

Module Str.

Definition is_digit (c : ascii) : bool :=
  let n := nat_of_ascii c in (Nat.leb 48 n && Nat.leb n 57)%bool.

Definition digit_val (c : ascii) : Z := Z.of_nat (nat_of_ascii c) - 48.

Fixpoint take_digits (s : string) : string :=
  match s with
  | String c r => if is_digit c then String c (take_digits r) else ""
  | EmptyString => ""
  end.

Fixpoint drop_digits (s : string) : string :=
  match s with
  | String c r => if is_digit c then drop_digits r else s
  | EmptyString => ""
  end.

Fixpoint drop_spaces (s : string) : string :=
  match s with
  | String c r => if Ascii.eqb c " "%char then drop_spaces r else s
  | EmptyString => ""
  end.

(** Value of a run of decimal digits, most significant first. *)
Fixpoint digits_from (acc : Z) (s : string) : Z :=
  match s with
  | String c r => digits_from (10 * acc + digit_val c) r
  | EmptyString => acc
  end.

Definition digits_value (s : string) : Z := digits_from 0 s.

(** [s.match(/\d+/)]: the first maximal run of digits, [None] for the
    [null] JavaScript returns when there is none. *)
Fixpoint match_digits (s : string) : option string :=
  match s with
  | String c r => if is_digit c then Some (take_digits s) else match_digits r
  | EmptyString => None
  end.

(** ** [parseInt]

    [parseInt(s)] skips leading white space, reads an optional sign, reads
    a [0x] or [0X] prefix as the mark of radix 16, and takes the longest
    prefix of digits of the radix; without a digit the result is [NaN].
    Strings are given by their UTF-8 bytes. *)

(** White space of one byte: TAB, LF, VT, FF, CR and SP. *)
Definition is_space1 (c : ascii) : bool :=
  let n := nat_of_ascii c in
  ((Nat.leb 9 n && Nat.leb n 13) || Nat.eqb n 32)%bool.

(** White space of two bytes: U+00A0. *)
Definition is_space2 (c d : ascii) : bool :=
  (Nat.eqb (nat_of_ascii c) 194 && Nat.eqb (nat_of_ascii d) 160)%bool.

(** White space of three bytes: U+1680, U+2000 to U+200A, U+2028, U+2029,
    U+202F, U+205F, U+3000 and U+FEFF. *)
Definition is_space3 (c d e : ascii) : bool :=
  let a := nat_of_ascii c in
  let b := nat_of_ascii d in
  let k := nat_of_ascii e in
  ((Nat.eqb a 225 && Nat.eqb b 154 && Nat.eqb k 128) ||
   (Nat.eqb a 226 && Nat.eqb b 128 &&
    ((Nat.leb 128 k && Nat.leb k 138) || Nat.eqb k 168 || Nat.eqb k 169 ||
     Nat.eqb k 175)) ||
   (Nat.eqb a 226 && Nat.eqb b 129 && Nat.eqb k 159) ||
   (Nat.eqb a 227 && Nat.eqb b 128 && Nat.eqb k 128) ||
   (Nat.eqb a 239 && Nat.eqb b 187 && Nat.eqb k 191))%bool.

(** The string without its leading white space. *)
Fixpoint trim_start (s : string) : string :=
  match s with
  | String c r =>
      if is_space1 c then trim_start r
      else
        match r with
        | String d r1 =>
            if is_space2 c d then trim_start r1
            else
              match r1 with
              | String e r2 => if is_space3 c d e then trim_start r2 else s
              | EmptyString => s
              end
        | EmptyString => s
        end
  | EmptyString => ""
  end.

Definition is_hex_digit (c : ascii) : bool :=
  let n := nat_of_ascii c in
  (is_digit c || (Nat.leb 65 n && Nat.leb n 70) ||
   (Nat.leb 97 n && Nat.leb n 102))%bool.

Definition hex_val (c : ascii) : Z :=
  let n := Z.of_nat (nat_of_ascii c) in
  if is_digit c then n - 48
  else if n <=? 70 then n - 55
  else n - 87.

Fixpoint take_hex (s : string) : string :=
  match s with
  | String c r => if is_hex_digit c then String c (take_hex r) else ""
  | EmptyString => ""
  end.

Fixpoint hex_from (acc : Z) (s : string) : Z :=
  match s with
  | String c r => hex_from (16 * acc + hex_val c) r
  | EmptyString => acc
  end.

Definition hex_value (s : string) : Z := hex_from 0 s.

(** The Number nearest to a non-negative integer: the integer itself up
    to 53 bits, beyond that its 53 leading bits rounded to nearest, ties
    to even.  [2 ^ 1024] stands for [Infinity]. *)
Definition to_number (n : Z) : Z :=
  let bits := Z.log2 n + 1 in
  if bits <=? 53 then n
  else
    let shift := bits - 53 in
    let q := Z.shiftr n shift in
    let r := n - Z.shiftl q shift in
    let half := Z.shiftl 1 (shift - 1) in
    let q := if ((half <? r) || ((r =? half) && Z.odd q))%bool
             then q + 1 else q in
    Z.min (Z.shiftl q shift) (2 ^ 1024).

(** The digits [parseInt] reads after the sign, as an integer. *)
Definition magnitude (t : string) : option Z :=
  let decimal :=
    match take_digits t with
    | EmptyString => None
    | ds => Some (digits_value ds)
    end in
  match t with
  | String "0"%char (String x r) =>
      if (Ascii.eqb x "x"%char || Ascii.eqb x "X"%char)%bool
      then match take_hex r with
           | EmptyString => None
           | ds => Some (hex_value ds)
           end
      else decimal
  | _ => decimal
  end.

(** [parseInt(s)]; [None] is [NaN]. *)
Definition parseInt (s : string) : option Z :=
  match trim_start s with
  | String "-"%char r => option_map (fun m => - to_number m) (magnitude r)
  | String "+"%char r => option_map to_number (magnitude r)
  | t => option_map to_number (magnitude t)
  end.

(** [s.toLowerCase()] on the letters A to Z. *)
Fixpoint lower (s : string) : string :=
  match s with
  | String c r =>
      let n := nat_of_ascii c in
      String (if (Nat.leb 65 n && Nat.leb n 90)%bool
              then ascii_of_nat (n + 32) else c)
             (lower r)
  | EmptyString => ""
  end.

(** [s.replace(pat, '')] with a string pattern: only the first occurrence
    of [pat] is removed. *)
Fixpoint remove_first (pat s : string) : string :=
  if String.prefix pat s
  then String.substring (String.length pat)
                        (String.length s - String.length pat) s
  else match s with
       | String c r => String c (remove_first pat r)
       | EmptyString => ""
       end.

End Str.

(* ================================================================== *)
(** * Time spans of jsonwebtoken's [expiresIn]

    [jwt.sign] turns a string [expiresIn] into milliseconds with the [ms]
    package and stores [exp = floor(iat + ms / 1000)].  [ms] accepts at
    most 100 characters that match
    [/^(-?(?:\d+)?\.?\d+) *(unit)?$/i]; no unit means milliseconds.  A
    span is kept as an exact fraction; the products and quotients of [ms]
    and [timespan] are taken without rounding. *)

Module Ms.

Definition second : Z := 1000.
Definition minute : Z := 60 * second.
Definition hour   : Z := 60 * minute.
Definition day    : Z := 24 * hour.
Definition week   : Z := 7 * day.
Definition year   : Z := 31557600000.

Definition units : list (string * Z) :=
  [ ("years", year); ("year", year); ("yrs", year); ("yr", year); ("y", year);
    ("weeks", week); ("week", week); ("w", week);
    ("days", day); ("day", day); ("d", day);
    ("hours", hour); ("hour", hour); ("hrs", hour); ("hr", hour); ("h", hour);
    ("minutes", minute); ("minute", minute); ("mins", minute);
    ("min", minute); ("m", minute);
    ("seconds", second); ("second", second); ("secs", second);
    ("sec", second); ("s", second);
    ("milliseconds", 1); ("millisecond", 1); ("msecs", 1); ("msec", 1);
    ("ms", 1); ("", 1) ].

(** The unit is matched without regard to case. *)
Definition unit_value (u : string) : option Z :=
  option_map snd
    (List.find (fun p => String.eqb (fst p) (Str.lower u)) units).

(** A span of [millis / scale] milliseconds, [scale] a power of ten. *)
Record span : Type := mkSpan { millis : Z; scale : Z }.

(** The numeral [(?:\d+)?\.?\d+] at the head of [t]: its digits read as one
    integer, ten to the number of digits after the point, and what
    follows the numeral. *)
Definition numeral (t : string) : option (Z * Z * string) :=
  let whole := Str.take_digits t in
  match Str.drop_digits t with
  | String "."%char r =>
      match Str.take_digits r with
      | EmptyString => None
      | fraction =>
          Some (Str.digits_value (whole ++ fraction),
                10 ^ Z.of_nat (String.length fraction),
                Str.drop_digits r)
      end
  | rest =>
      match whole with
      | EmptyString => None
      | _ => Some (Str.digits_value whole, 1, rest)
      end
  end.

(** [ms(s)]; [None] when [ms] rejects the string. *)
Definition ms (s : string) : option span :=
  if (100 <? Js.length s)%nat then None
  else
    let negative := match s with String "-"%char _ => true | _ => false end in
    let t := match s with String "-"%char r => r | _ => s end in
    match numeral t with
    | Some (n, scale, rest) =>
        match unit_value (Str.drop_spaces rest) with
        | Some k => Some (mkSpan ((if negative then - n else n) * k) scale)
        | None => None
        end
    | None => None
    end.

(** jsonwebtoken's [timespan(expiresIn, iat)], in seconds:
    [Math.floor(iat + milliseconds / 1000)]. *)
Definition timespan (expiresIn : string) (iat : Z) : option Z :=
  match ms expiresIn with
  | Some sp =>
      Some ((iat * (1000 * scale sp) + millis sp) / (1000 * scale sp))
  | None => None
  end.

End Ms.

(* ================================================================== *)
(** * The database behind the Prisma client *)

(** A row of [prisma.user].  The columns kept by the database itself
    ([createdAt], [updatedAt]) and the serialized [products] list are not
    touched by the operations modelled here and are left out. *)
Module User.
Record t : Type := mk {
  id : Z;
  username : string;
  email : string;
  passwordHash : string;
  nickname : option string;
  avatar : option string;
  role : string;
  status : string;
  disabledRemark : option string;
  source : string;
  lastLoginAt : option Z
}.
End User.

(** A row of [prisma.userSession]; [expiresAt] in milliseconds since the epoch. *)
Module UserSession.
Record t : Type := mk {
  userId : Z;
  token : string;
  expiresAt : Z;
  ipAddress : Js.value;
  userAgent : Js.value;
  deviceId : Js.value
}.
End UserSession.

(** A row of [prisma.userLoginLog]. *)
Module UserLoginLog.
Record t : Type := mk {
  userId : option Z;
  username : string;
  ipAddress : Js.value;
  userAgent : Js.value;
  success : bool;
  message : string
}.
End UserLoginLog.

(** The three tables, each in insertion order, and the next auto-increment
    user id. *)
Record Db : Type := mkDb {
  user : list User.t;
  userSession : list UserSession.t;
  userLoginLog : list UserLoginLog.t;
  userSeq : Z
}.

Definition with_user (f : list User.t -> list User.t) (db : Db) : Db :=
  mkDb (f (user db)) (userSession db) (userLoginLog db) (userSeq db).

Definition with_userSession
  (f : list UserSession.t -> list UserSession.t) (db : Db) : Db :=
  mkDb (user db) (f (userSession db)) (userLoginLog db) (userSeq db).

Definition with_userLoginLog
  (f : list UserLoginLog.t -> list UserLoginLog.t) (db : Db) : Db :=
  mkDb (user db) (userSession db) (f (userLoginLog db)) (userSeq db).

(* ================================================================== *)
(** * Asynchronous functions: database state and exceptions *)

Inductive outcome (A : Type) : Type :=
| Return (a : A)
| Throw (e : Exn.t).

Arguments Return {A} a.
Arguments Throw {A} e.

(** An [async] function body: it runs against the database and either
    returns or throws; writes made before a throw stay. *)
Definition M (A : Type) : Type := Db -> outcome A * Db.

Definition ret {A} (a : A) : M A := fun db => (Return a, db).

Definition throw {A} (e : Exn.t) : M A := fun db => (Throw e, db).

Definition bind {A B} (c : M A) (k : A -> M B) : M B :=
  fun db =>
    match c db with
    | (Return a, db') => k a db'
    | (Throw e, db') => (Throw e, db')
    end.

(** [try { c } catch (error) { h error }] *)
Definition try_catch {A} (c : M A) (h : Exn.t -> M A) : M A :=
  fun db =>
    match c db with
    | (Return a, db') => (Return a, db')
    | (Throw e, db') => h e db'
    end.

(** A synchronous call that may throw. *)
Definition lift {A} (o : outcome A) : M A := fun db => (o, db).

Declare Scope async_scope.
Delimit Scope async_scope with async.
Notation "x <- c ;; k" := (bind c (fun x => k))
  (at level 61, c at next level, right associativity) : async_scope.
Notation "c ;; k" := (bind c (fun _ => k))
  (at level 61, right associativity) : async_scope.
Open Scope async_scope.

(* ================================================================== *)
(** * Prisma queries *)

Module Prisma.

(** A query is rejected for what the tables hold: a unique constraint, a
    row that is not there.  That the store itself fails is an input only
    of [transaction]; every other query is taken to be served. *)

(** ** [prisma.user] *)

Definition user_findFirst (where_ : User.t -> bool) : M (option User.t) :=
  fun db => (Return (List.find where_ (user db)), db).

Definition user_findUnique (id : Z) : M (option User.t) :=
  user_findFirst (fun u => Z.eqb (User.id u) id).

(** Modelled from the spec: the schema file is not part of the sources; the
    data model declares [username] and [email] globally unique, and a
    violation surfaces as a rejected query. *)
Definition user_unique_ok (self : Z) (uname mail : string) (db : Db) : bool :=
  negb (List.existsb
          (fun u => negb (Z.eqb (User.id u) self) &&
                    (String.eqb (User.username u) uname ||
                     String.eqb (User.email u) mail))
          (user db)).

(** [prisma.user.create]: the row gets the next auto-increment id. *)
Definition user_create (row : Z -> User.t) : M User.t :=
  fun db =>
    let r := row (userSeq db) in
    if user_unique_ok (User.id r) (User.username r) (User.email r) db
    then (Return r,
          mkDb (user db ++ [r])%list (userSession db) (userLoginLog db)
               (userSeq db + 1))
    else (Throw (Exn.PrismaError "Unique constraint failed"), db).

Fixpoint replace_user (id : Z) (r : User.t) (l : list User.t) : list User.t :=
  match l with
  | [] => []
  | u :: l' =>
      if Z.eqb (User.id u) id then r :: l' else u :: replace_user id r l'
  end.

(** [prisma.user.update({ where: { id }, data })], with [data] given as the
    change it makes to the row. *)
Definition user_update (id : Z) (data : User.t -> User.t) : M User.t :=
  fun db =>
    match List.find (fun u => Z.eqb (User.id u) id) (user db) with
    | None => (Throw (Exn.PrismaError "Record to update not found"), db)
    | Some u =>
        let r := data u in
        if user_unique_ok id (User.username r) (User.email r) db
        then (Return r, with_user (replace_user id r) db)
        else (Throw (Exn.PrismaError "Unique constraint failed"), db)
    end.

(** [prisma.user.delete({ where: { id } })] *)
Definition user_delete (id : Z) : M User.t :=
  fun db =>
    match List.find (fun u => Z.eqb (User.id u) id) (user db) with
    | None => (Throw (Exn.PrismaError "Record to delete does not exist"), db)
    | Some u =>
        (Return u,
         with_user (List.filter (fun v => negb (Z.eqb (User.id v) id))) db)
    end.

(** ** [prisma.userSession] *)

Definition userSession_findFirst (where_ : UserSession.t -> bool)
  : M (option UserSession.t) :=
  fun db => (Return (List.find where_ (userSession db)), db).

(** Modelled from the spec: the schema file is not part of the sources; the
    data model declares the session token unique. *)
Definition token_unique_ok (tok : string) (db : Db) : bool :=
  negb (List.existsb (fun s => String.eqb (UserSession.token s) tok)
                     (userSession db)).

Definition userSession_create (row : UserSession.t) : M unit :=
  fun db =>
    if token_unique_ok (UserSession.token row) db
    then (Return tt, with_userSession (fun l => (l ++ [row])%list) db)
    else (Throw (Exn.PrismaError "Unique constraint failed"), db).

Definition userSession_deleteMany (where_ : UserSession.t -> bool) : M unit :=
  fun db =>
    (Return tt,
     with_userSession (List.filter (fun s => negb (where_ s))) db).

(** ** [prisma.userLoginLog] *)

Definition userLoginLog_create (row : UserLoginLog.t) : M unit :=
  fun db => (Return tt, with_userLoginLog (fun l => (l ++ [row])%list) db).

Definition userLoginLog_deleteMany (where_ : UserLoginLog.t -> bool) : M unit :=
  fun db =>
    (Return tt,
     with_userLoginLog (List.filter (fun s => negb (where_ s))) db).

(** ** [prisma.$transaction([...])]

    The statements run in order inside one database transaction.  [fault]
    is the environment's part: the index of the statement at which the
    store fails, if it does.  When a statement is rejected nothing of the
    batch is kept. *)
Fixpoint run_batch (fault : option nat) (ops : list (M unit)) (db : Db)
  : option Db :=
  match ops with
  | [] => Some db
  | op :: rest =>
      match fault with
      | Some O => None
      | _ =>
          match op db with
          | (Return _, db') => run_batch (option_map Nat.pred fault) rest db'
          | (Throw _, _) => None
          end
      end
  end.

Definition transaction (fault : option nat) (ops : list (M unit)) : M unit :=
  fun db =>
    match run_batch fault ops db with
    | Some db' => (Return tt, db')
    | None => (Throw (Exn.PrismaError "Transaction failed"), db)
    end.

End Prisma.

(* ================================================================== *)
(** * External primitives: bcrypt and the JWS encoding *)

Module Jwt.
(** The payload [jwt.sign] writes and [jwt.verify] returns. *)
Record Claims : Type := mk {
  userId : Z;
  username : string;
  role : string;
  iat : Z;
  exp : Z
}.
End Jwt.

(** [bcrypt.hash(password, salt)], [bcrypt.compare(password, hash)] and the
    signing and signature check of a JWS under a secret.  Nothing is assumed
    about them. *)
Class Crypto : Type := {
  bcrypt_hash : string -> string -> string;
  bcrypt_compare : string -> string -> bool;
  jws_sign : Jwt.Claims -> string -> string;
  jws_verify : string -> string -> option Jwt.Claims
}.

(** [process.env] *)
Record Env : Type := mkEnv {
  JWT_SECRET : string;
  JWT_EXPIRES_IN : string
}.

(** [jsonwebtoken] is an external package; [sign] and [verify] follow its
    documented behaviour around the abstract JWS encoding. *)
Section Jsonwebtoken.
Context `{Crypto}.

(** [jwt.sign({ userId, username, role }, secret, { expiresIn })] at time
    [now] (milliseconds): [iat] is the current second, [exp] is [iat] plus
    the span. *)
Definition jwt_sign (userId : Z) (username role secret expiresIn : string)
  (now : Z) : outcome string :=
  let iat := now / 1000 in
  match Ms.timespan expiresIn iat with
  | Some exp => Return (jws_sign (Jwt.mk userId username role iat exp) secret)
  | None =>
      Throw (Exn.Error
               "expiresIn should be a number of seconds or string representing a timespan")
  end.

(** [jwt.verify(token, secret)] at time [now]. *)
Definition jwt_verify (token secret : string) (now : Z)
  : outcome Jwt.Claims :=
  match jws_verify token secret with
  | None => Throw (Exn.JsonWebTokenError "invalid token")
  | Some c =>
      if Z.leb (Jwt.exp c) (now / 1000)
      then Throw Exn.TokenExpiredError
      else Return c
  end.

End Jsonwebtoken.

(* ================================================================== *)
(** * [models/user.model.js] *)

(** The caller-visible projection of a user: the [select] of [authJWT] and
    the [userInfo] object of [login]. *)
Record Identity : Type := mkIdentity {
  id : Z;
  username : string;
  email : string;
  nickname : option string;
  avatar : option string;
  role : string;
  status : string
}.

Definition identity_of (u : User.t) : Identity :=
  mkIdentity (User.id u) (User.username u) (User.email u) (User.nickname u)
             (User.avatar u) (User.role u) (User.status u).

Record LoginInfo : Type := mkLoginInfo {
  ipAddress : Js.value;
  userAgent : Js.value;
  deviceId : Js.value
}.

Record LoginResult : Type := mkLoginResult {
  result_user : Identity;
  result_token : string
}.

(** The [userData] object of [createUser]. *)
Module UserData.
Record t : Type := mk {
  username : Js.value;
  email : Js.value;
  password : Js.value;
  nickname : Js.value;
  role : Js.value;
  source : Js.value
}.
End UserData.

(** The [updateData] object of [updateUser]; a field is [Js.undefined] when
    the key is absent. *)
Module UpdateData.
Record t : Type := mk {
  username : Js.value;
  email : Js.value;
  nickname : Js.value;
  avatar : Js.value;
  role : Js.value;
  status : Js.value;
  disabledRemark : Js.value;
  password : Js.value
}.

Definition empty : t :=
  mk Js.undefined Js.undefined Js.undefined Js.undefined Js.undefined
     Js.undefined Js.undefined Js.undefined.

Definition count (v : Js.value) : nat := if Js.defined v then 1%nat else 0%nat.

(** [Object.keys(updateData).length] *)
Definition keys (d : t) : nat :=
  (count (username d) + count (email d) + count (nickname d) +
   count (avatar d) + count (role d) + count (status d) +
   count (disabledRemark d) + count (password d))%nat.

Definition set_disabledRemark (v : Js.value) (d : t) : t :=
  mk (username d) (email d) (nickname d) (avatar d) (role d) (status d) v
     (password d).

(** A required column takes a string; [undefined] leaves it as it is. *)
Definition required (v : Js.value) (old : string) : string :=
  match v with
  | Js.str s => s
  | _ => old
  end.

(** A nullable column also takes [null]. *)
Definition nullable (v : Js.value) (old : option string) : option string :=
  match v with
  | Js.undefined => old
  | Js.null => None
  | Js.str s => Some s
  end.

(** Prisma rejects [null] for a required column, and a [password] key that
    is still in the data: [updateUser] removes it only when it is truthy. *)
Definition valid (d : t) : bool :=
  match username d, email d, role d, status d with
  | Js.null, _, _, _ | _, Js.null, _, _
  | _, _, Js.null, _ | _, _, _, Js.null => false
  | _, _, _, _ => Js.truthy (password d) || negb (Js.defined (password d))
  end.

(** The row after [prisma.user.update({ data })], with the new password
    hash when there is one. *)
Definition apply (d : t) (hash : option string) (u : User.t) : User.t :=
  User.mk (User.id u)
          (required (username d) (User.username u))
          (required (email d) (User.email u))
          (match hash with Some h => h | None => User.passwordHash u end)
          (nullable (nickname d) (User.nickname u))
          (nullable (avatar d) (User.avatar u))
          (required (role d) (User.role u))
          (required (status d) (User.status u))
          (nullable (disabledRemark d) (User.disabledRemark u))
          (User.source u)
          (User.lastLoginAt u).
End UpdateData.

(** The string a truthy body field holds. *)
Definition text (v : Js.value) : string :=
  match v with
  | Js.str s => s
  | _ => ""
  end.

(** A Prisma equality filter [{ column: v }] as a member of an [OR] list.
    A member whose value is [undefined] is dropped from the list, so it
    matches no row; [null] matches no row of a required column. *)
Definition where_eq (v : Js.value) (column : string) : bool :=
  match v with
  | Js.undefined => false
  | Js.null => false
  | Js.str s => String.eqb column s
  end.

Definition set_lastLoginAt (now : Z) (u : User.t) : User.t :=
  User.mk (User.id u) (User.username u) (User.email u) (User.passwordHash u)
          (User.nickname u) (User.avatar u) (User.role u) (User.status u)
          (User.disabledRemark u) (User.source u) (Some now).

Module UserModel.
Section Methods.
Context `{Crypto} (env : Env).

(** [saveLoginLog]: a failed write is logged and swallowed. *)
Definition saveLoginLog (userId : option Z) (username : string)
  (loginInfo : LoginInfo) (success : bool) (message : string) : M unit :=
  try_catch
    (Prisma.userLoginLog_create
       (UserLoginLog.mk userId username (ipAddress loginInfo)
                        (userAgent loginInfo) success message))
    (fun _ => ret tt).

(** The duplicate report shared by [createUser] and [updateUser]. *)
Definition report_existing (existingUser : option User.t)
  (uname mail : Js.value) : M unit :=
  match existingUser with
  | Some e =>
      if Js.is_str uname (User.username e)
      then throw (Exn.Error "用户名已存在")
      else if Js.is_str mail (User.email e)
      then throw (Exn.Error "邮箱已被注册")
      else ret tt
  | None => ret tt
  end.

(** [createUser(userData)]; [salt] is the value [bcrypt.genSalt] draws. *)
Definition createUser (salt : string) (userData : UserData.t) : M User.t :=
  existingUser <-
    Prisma.user_findFirst
      (fun u => where_eq (UserData.username userData) (User.username u) ||
                where_eq (UserData.email userData) (User.email u)) ;;
  report_existing existingUser (UserData.username userData)
                  (UserData.email userData) ;;
  match UserData.username userData, UserData.email userData,
        UserData.password userData with
  | Js.str uname, Js.str mail, Js.str pw =>
      let passwordHash := bcrypt_hash pw salt in
      Prisma.user_create
        (fun id =>
           User.mk id uname mail passwordHash
                   (Some (Js.or_else (UserData.nickname userData) uname))
                   None
                   (Js.or_else (UserData.role userData) "user")
                   "active"
                   None
                   (Js.or_else (UserData.source userData) "unknown")
                   None)
  | _, _, _ => throw (Exn.Error "Invalid arguments")
  end.

(** [login(username, password, loginInfo)] at time [now].  The process
    runs in a zone without daylight saving (the image of the [Dockerfile]
    sets none, so UTC), where [setHours(getHours() + n)] adds [n] hours of
    3 600 000 ms, and times stay within the range of [Date]. *)
Definition login (now : Z) (username password : string)
  (loginInfo : LoginInfo) : M LoginResult :=
  user <-
    Prisma.user_findFirst
      (fun u => String.eqb (User.username u) username ||
                String.eqb (User.email u) username) ;;
  match user with
  | None =>
      saveLoginLog None username loginInfo false "用户不存在" ;;
      throw (Exn.Error "用户名或密码错误")
  | Some user =>
      if negb (String.eqb (User.status user) "active") then
        saveLoginLog (Some (User.id user)) username loginInfo false
                     "用户已被禁用" ;;
        throw (Exn.Error "用户已被禁用")
      else if negb (bcrypt_compare password (User.passwordHash user)) then
        saveLoginLog (Some (User.id user)) username loginInfo false
                     "密码错误" ;;
        throw (Exn.Error "用户名或密码错误")
      else
        token <-
          lift (jwt_sign (User.id user) (User.username user)
                         (User.role user) (JWT_SECRET env)
                         (JWT_EXPIRES_IN env) now) ;;
        hours <-
          lift (match Str.match_digits (JWT_EXPIRES_IN env) with
                | Some h =>
                    match Str.parseInt h with
                    | Some n => Return n
                    | None => Throw (Exn.TypeError "Invalid Date")
                    end
                | None => Throw (Exn.TypeError "object null is not iterable")
                end) ;;
        let expiresAt := now + hours * Ms.hour in
        Prisma.userSession_create
          (UserSession.mk (User.id user) token expiresAt
                          (ipAddress loginInfo) (userAgent loginInfo)
                          (deviceId loginInfo)) ;;
        Prisma.user_update (User.id user) (set_lastLoginAt now) ;;
        saveLoginLog (Some (User.id user)) username loginInfo true
                     "登录成功" ;;
        ret (mkLoginResult (identity_of user) token)
  end.

(** [getUserInfo(userId)]; the row stands for its selected columns: no
    caller reads the password hash. *)
Definition getUserInfo (userId : Z) : M User.t :=
  user <- Prisma.user_findUnique userId ;;
  match user with
  | None => throw (Exn.Error "用户不存在")
  | Some u => ret u
  end.

(** [updateUser(userId, updateData)] *)
Definition updateUser (salt : string) (userId : Z)
  (updateData : UpdateData.t) : M User.t :=
  let hash :=
    if Js.truthy (UpdateData.password updateData)
    then Some (bcrypt_hash (text (UpdateData.password updateData)) salt)
    else None in
  (if Js.truthy (UpdateData.username updateData) ||
      Js.truthy (UpdateData.email updateData)
   then
     existingUser <-
       Prisma.user_findFirst
         (fun u =>
            negb (Z.eqb (User.id u) userId) &&
            (where_eq (UpdateData.username updateData) (User.username u) ||
             where_eq (UpdateData.email updateData) (User.email u))) ;;
     report_existing existingUser (UpdateData.username updateData)
                     (UpdateData.email updateData)
   else ret tt) ;;
  if UpdateData.valid updateData
  then Prisma.user_update userId (UpdateData.apply updateData hash)
  else throw (Exn.PrismaError "Invalid invocation of update").

(** [deleteUser(userId)]; [fault] is where the store fails inside the
    transaction, if it does. *)
Definition deleteUser (fault : option nat) (userId : Z) : M User.t :=
  user <- Prisma.user_findUnique userId ;;
  match user with
  | None => throw (Exn.Error "用户不存在")
  | Some u =>
      Prisma.transaction fault
        [ Prisma.userSession_deleteMany
            (fun s => Z.eqb (UserSession.userId s) userId);
          Prisma.userLoginLog_deleteMany
            (fun l => match UserLoginLog.userId l with
                      | Some i => Z.eqb i userId
                      | None => false
                      end);
          (Prisma.user_delete userId ;; ret tt) ] ;;
      ret u
  end.

(** [logout(userId, token = null)] *)
Definition logout (userId : Z) (token : Js.value) : M unit :=
  match token with
  | Js.str t =>
      if String.eqb t ""
      then Prisma.userSession_deleteMany
             (fun s => Z.eqb (UserSession.userId s) userId)
      else Prisma.userSession_deleteMany
             (fun s => Z.eqb (UserSession.userId s) userId &&
                       String.eqb (UserSession.token s) t)
  | _ =>
      Prisma.userSession_deleteMany
        (fun s => Z.eqb (UserSession.userId s) userId)
  end.

End Methods.
End UserModel.

(* ================================================================== *)
(** * HTTP responses *)

Module Http.

(** The user object of a response.  Every [select] of the model leaves
    [passwordHash] out, so the object never carries it; a column that one
    [select] leaves out besides is carried all the same. *)
Record UserObject : Type := mkUserObject {
  object_id : Z;
  object_username : string;
  object_email : string;
  object_nickname : option string;
  object_avatar : option string;
  object_role : string;
  object_status : string;
  object_disabledRemark : option string;
  object_source : string;
  object_lastLoginAt : option Z
}.

(** What a handler passes to [res.json]. *)
Inductive body : Type :=
| envelope (code : Z) (message : string)
| message_only (message : string)
| user_object (o : UserObject)
| login_json (r : LoginResult).

(** The response object of a row the model returns. *)
Definition user_json (u : User.t) : body :=
  user_object
    (mkUserObject (User.id u) (User.username u) (User.email u)
                  (User.nickname u) (User.avatar u) (User.role u)
                  (User.status u) (User.disabledRemark u) (User.source u)
                  (User.lastLoginAt u)).

(** [res.status(status).json(body)] *)
Record Response : Type := mk { status : Z; json : body }.

End Http.

(** An [async] route handler is an [M Http.Response]: it sends one response,
    or its promise rejects (a [Throw]) and nothing is sent. *)
Definition Handler : Type := M Http.Response.

(* ================================================================== *)
(** * [middleware/auth.jwt.js] *)

(** What the middleware leaves behind: a response, or [next()] with
    [req.user] and [req.token] set. *)
Inductive Auth : Type :=
| Rejected (r : Http.Response)
| Authenticated (user : Identity) (token : string).

Definition unauthorized (message : string) : Auth :=
  Rejected (Http.mk 401 (Http.message_only message)).

Section Middleware.
Context `{Crypto} (env : Env).

(** [authJWT] at time [now]; [authHeader] is [req.header('Authorization')]. *)
Definition authJWT (now : Z) (authHeader : option string) : M Auth :=
  try_catch
    (match authHeader with
     | None => ret (unauthorized "未提供认证令牌")
     | Some h =>
         if String.eqb h "" then ret (unauthorized "未提供认证令牌")
         else
           let token := Str.remove_first "Bearer " h in
           if String.eqb token "" then ret (unauthorized "无效的认证令牌")
           else
             decoded <- lift (jwt_verify token (JWT_SECRET env) now) ;;
             user <- Prisma.user_findUnique (Jwt.userId decoded) ;;
             match user with
             | None => ret (unauthorized "用户不存在或已被禁用")
             | Some u =>
                 if negb (String.eqb (User.status u) "active")
                 then ret (unauthorized "用户不存在或已被禁用")
                 else
                   session <-
                     Prisma.userSession_findFirst
                       (fun s =>
                          Z.eqb (UserSession.userId s) (User.id u) &&
                          String.eqb (UserSession.token s) token &&
                          Z.ltb now (UserSession.expiresAt s)) ;;
                   match session with
                   | None => ret (unauthorized "会话已过期或无效")
                   | Some _ => ret (Authenticated (identity_of u) token)
                   end
             end
     end)
    (fun error =>
       if String.eqb (Exn.name error) "JsonWebTokenError"
       then ret (unauthorized "无效的JWT令牌")
       else if String.eqb (Exn.name error) "TokenExpiredError"
       then ret (unauthorized "JWT令牌已过期")
       else ret (Rejected (Http.mk 500 (Http.message_only "服务器内部错误")))).

(** [authorizeRoles(...roles)] applied to [req.user]. *)
Definition authorizeRoles (roles : list string) (reqUser : option Identity)
  : option Http.Response :=
  match reqUser with
  | Some u =>
      if List.existsb (String.eqb (role u)) roles then None
      else Some (Http.mk 403 (Http.message_only "权限不足"))
  | None => Some (Http.mk 403 (Http.message_only "权限不足"))
  end.

End Middleware.

(** The four stages at which [authJWT] turns a token away, under the names
    the specification gives them. *)
Definition InvalidToken : Auth := unauthorized "无效的JWT令牌".
Definition ExpiredToken : Auth := unauthorized "JWT令牌已过期".
Definition UserInactive : Auth := unauthorized "用户不存在或已被禁用".
Definition SessionRevoked : Auth := unauthorized "会话已过期或无效".

(** The messages [login] throws, under the specification's names. *)
Definition InvalidCredentials : Exn.t := Exn.Error "用户名或密码错误".
Definition AccountDisabled : Exn.t := Exn.Error "用户已被禁用".

(** The two duplicate reports of [createUser]. *)
Definition DuplicateUsername : Exn.t := Exn.Error "用户名已存在".
Definition DuplicateEmail : Exn.t := Exn.Error "邮箱已被注册".

(** [deleteUser]'s report for an absent user. *)
Definition NotFound : Exn.t := Exn.Error "用户不存在".

(* ================================================================== *)
(** * [routes/auth.js] and [routes/user.js] *)

(** [error.message || fallback] *)
Definition message_or (error : Exn.t) (fallback : string) : string :=
  if String.eqb (Exn.message error) "" then fallback else Exn.message error.


Module Routes.
Section Handlers.
Context `{Crypto} (env : Env).

(** [POST /auth/register].  The [catch] block evaluates [user], a [const]
    of the [try] block, which is not in scope there. *)
Definition register (salt : string)
  (username email password nickname source : Js.value) : Handler :=
  try_catch
    (if negb (Js.truthy username) || negb (Js.truthy email) ||
        negb (Js.truthy password)
     then ret (Http.mk 400 (Http.envelope 400 "用户名、邮箱和密码为必填项"))
     else if (Js.length (text password) <? 6)%nat
     then ret (Http.mk 400 (Http.envelope 400 "密码长度不能少于6位"))
     else
       user <-
         UserModel.createUser salt
           (UserData.mk username email password nickname Js.undefined
                        source) ;;
       ret (Http.mk 201 (Http.user_json user)))
    (fun _ => throw (Exn.ReferenceError "user")).

(** [POST /auth/login] at time [now]; [ip] is [req.ip] and [ua] the
    user-agent header. *)
Definition login (now : Z) (username password ip ua : Js.value) : Handler :=
  try_catch
    (if negb (Js.truthy username) || negb (Js.truthy password)
     then ret (Http.mk 400 (Http.envelope 400 "用户名和密码为必填项"))
     else
       result <-
         UserModel.login env now (text username) (text password)
                         (mkLoginInfo ip ua Js.undefined) ;;
       ret (Http.mk 200 (Http.login_json result)))
    (fun error =>
       ret (Http.mk 200
              (Http.envelope 401 (message_or error "用户名或密码错误")))).

(** The [disabledRemark] step of [PUT /users/:id]: when the request's
    status is not ['blocked'] and no remark comes with it, a stored
    remark is set to [null]. *)
Definition clear_remark (userId : Z) (status disabledRemark : Js.value)
  (updateData : UpdateData.t) : M UpdateData.t :=
  if negb (Js.is_str status "blocked") && negb (Js.defined disabledRemark)
  then
    currentUser <- UserModel.getUserInfo userId ;;
    if Js.truthy (Js.of_column (User.disabledRemark currentUser))
    then ret (UpdateData.set_disabledRemark Js.null updateData)
    else ret updateData
  else ret updateData.

(** [PUT /users/:id] after [authJWT] and [authorizeRoles]; [body] holds
    the seven fields the handler reads from [req.body]. *)
Definition update (salt : string) (reqUser : Identity) (params_id : string)
  (body : UpdateData.t) : Handler :=
  try_catch
    (match Str.parseInt params_id with
     | None => ret (Http.mk 400 (Http.envelope 400 "无效的用户ID"))
     | Some userId =>
         forbidden <-
           (if String.eqb (role reqUser) "admin"
            then targetUser <- UserModel.getUserInfo userId ;;
                 ret (String.eqb (User.role targetUser) "superadmin")
            else ret false) ;;
         if forbidden : bool
         then ret (Http.mk 403
                     (Http.envelope 403 "权限不足，无法修改超级管理员信息"))
         else
           let status := UpdateData.status body in
           let disabledRemark := UpdateData.disabledRemark body in
           let updateData :=
             UpdateData.mk (UpdateData.username body) (UpdateData.email body)
                           (UpdateData.nickname body) (UpdateData.avatar body)
                           (UpdateData.role body) status disabledRemark
                           Js.undefined in
           if Js.is_str status "blocked" && negb (Js.truthy disabledRemark)
           then ret (Http.mk 400 (Http.envelope 400 "禁用用户时必须添加备注"))
           else
             updateData <- clear_remark userId status disabledRemark
                                        updateData ;;
             if Nat.eqb (UpdateData.keys updateData) 0
             then ret (Http.mk 400 (Http.envelope 400 "请提供要更新的字段"))
             else
               updatedUser <- UserModel.updateUser salt userId updateData ;;
               ret (Http.mk 200 (Http.user_json updatedUser))
     end)
    (fun error =>
       if String.eqb (Exn.message error) "用户不存在"
       then ret (Http.mk 404 (Http.envelope 404 "用户不存在"))
       else ret (Http.mk 400 (Http.envelope 400 (message_or error "更新失败")))).

(** The inner [try] of [PUT /users/change-password]: the current password
    is checked by logging in with it.  [None] lets the handler go on;
    [Some r] is the response of the inner [catch]. *)
Definition verify_current_password (now : Z) (reqUser : Identity)
  (currentPassword : string) (ip ua : Js.value)
  : M (option Http.Response) :=
  try_catch
    (user <- UserModel.getUserInfo (id reqUser) ;;
     UserModel.login env now (User.username user) currentPassword
                     (mkLoginInfo ip ua Js.undefined) ;;
     ret None)
    (fun _ => ret (Some (Http.mk 400 (Http.envelope 400 "当前密码错误")))).

(** The handler registered for [PUT /users/change-password], after
    [authJWT]; [UserRouter.put] tells which requests reach it. *)
Definition change_password (now : Z) (salt : string) (reqUser : Identity)
  (currentPassword newPassword ip ua : Js.value) : Handler :=
  try_catch
    (if negb (Js.truthy currentPassword) || negb (Js.truthy newPassword)
     then ret (Http.mk 400 (Http.envelope 400 "请提供当前密码和新密码"))
     else if (Js.length (text newPassword) <? 6)%nat
     then ret (Http.mk 400 (Http.envelope 400 "新密码长度不能少于6位"))
     else
       rejected <- verify_current_password now reqUser
                                           (text currentPassword) ip ua ;;
       match rejected with
       | Some r => ret r
       | None =>
           UserModel.updateUser salt (id reqUser)
             (UpdateData.mk Js.undefined Js.undefined Js.undefined
                            Js.undefined Js.undefined Js.undefined
                            Js.undefined newPassword) ;;
           UserModel.logout (id reqUser) Js.null ;;
           ret (Http.mk 200 (Http.envelope 200 "密码修改成功，请重新登录"))
       end)
    (fun error =>
       ret (Http.mk 400 (Http.envelope 400 (message_or error "密码修改失败")))).

End Handlers.
End Routes.

(* ================================================================== *)
(** * A concrete world for the examples *)

Module Fixture.

Definition alice_claims : Jwt.Claims := Jwt.mk 1 "alice" "user" 1000 87400.
Definition bob_claims : Jwt.Claims := Jwt.mk 2 "bob" "user" 1000 87400.

(** A toy instance: a hash is the password after its salt, and the
    signature check knows the two tokens of the examples. *)
Definition crypto : Crypto :=
  {| bcrypt_hash := fun pw salt => salt ++ "$" ++ pw;
     bcrypt_compare := fun pw h => String.eqb h ("salt$" ++ pw);
     jws_sign := fun c secret => "jwt." ++ Jwt.username c ++ "." ++ secret;
     jws_verify := fun tok secret =>
       if String.eqb secret "s3cret" then
         if String.eqb tok "jwt.alice.s3cret" then Some alice_claims
         else if String.eqb tok "jwt.bob.s3cret" then Some bob_claims
         else None
       else None |}.

Definition env : Env := mkEnv "s3cret" "24h".
Definition env_days : Env := mkEnv "s3cret" "7d".

Definition alice : User.t :=
  User.mk 1 "alice" "alice@x.com" "salt$secret1" (Some "Alice") None
          "user" "active" None "web" None.

Definition bob : User.t :=
  User.mk 2 "bob" "bob@x.com" "salt$hunter22" (Some "Bob") None
          "user" "blocked" (Some "spam") "web" None.

Definition root : Identity :=
  mkIdentity 9 "root" "root@x.com" None None "superadmin" "active".

Definition info : LoginInfo :=
  mkLoginInfo (Js.str "10.0.0.1") (Js.str "curl") Js.undefined.

Definition bob_session : UserSession.t :=
  UserSession.mk 2 "jwt.bob.s3cret" 90000000 (Js.str "10.0.0.1")
                 (Js.str "curl") Js.undefined.

Definition alice_session : UserSession.t :=
  UserSession.mk 1 "jwt.alice.s3cret" 90000000 (Js.str "10.0.0.1")
                 (Js.str "curl") Js.undefined.

Definition bob_log : UserLoginLog.t :=
  UserLoginLog.mk (Some 2) "bob" (Js.str "10.0.0.1") (Js.str "curl") true
                  "登录成功".

Definition anonymous_log : UserLoginLog.t :=
  UserLoginLog.mk None "mallory" (Js.str "10.0.0.9") (Js.str "curl") false
                  "用户不存在".

(** Two users, no session. *)
Definition db : Db := mkDb [alice; bob] [] [] 3.

(** Both users hold a live session; two audit rows, one of an unknown name. *)
Definition db_live : Db :=
  mkDb [alice; bob] [alice_session; bob_session] [bob_log; anonymous_log] 3.

End Fixture.

(* ================================================================== *)
(** * Vocabulary of the statements *)

(** The stored row of a user id. *)
Definition by_id (i : Z) (db : Db) : option User.t :=
  List.find (fun u => Z.eqb (User.id u) i) (user db).

(** The stored user a verified token names. *)
Definition owner (claims : Jwt.Claims) (db : Db) : option User.t :=
  by_id (Jwt.userId claims) db.

(** The unexpired session row of [u] holding [token]. *)
Definition live_session (now : Z) (u : User.t) (token : string) (db : Db)
  : option UserSession.t :=
  List.find
    (fun s => Z.eqb (UserSession.userId s) (User.id u) &&
              String.eqb (UserSession.token s) token &&
              Z.ltb now (UserSession.expiresAt s))
    (userSession db).

(** The user [login] resolves a name to: the first row whose username or
    email is the name. *)
Definition resolve (name : string) (db : Db) : option User.t :=
  List.find
    (fun u => String.eqb (User.username u) name ||
              String.eqb (User.email u) name)
    (user db).

(** The token a header carries. *)
Definition bearer (h : string) : string := Str.remove_first "Bearer " h.

(** The whole hours [login] adds to the current time for the session row. *)
Definition session_hours (env : Env) : option Z :=
  match Str.match_digits (JWT_EXPIRES_IN env) with
  | Some h => Str.parseInt h
  | None => None
  end.


Definition failed_attempt (userId : option Z) (username : string)
  (info : LoginInfo) (message : string) : UserLoginLog.t :=
  UserLoginLog.mk userId username (ipAddress info) (userAgent info) false
                  message.

Definition successful_attempt (u : User.t) (username : string)
  (info : LoginInfo) : UserLoginLog.t :=
  UserLoginLog.mk (Some (User.id u)) username (ipAddress info)
                  (userAgent info) true "登录成功".

Definition logged (row : UserLoginLog.t) (db : Db) : Db :=
  with_userLoginLog (fun l => (l ++ [row])%list) db.

Definition session_of (u : User.t) (token : string) (expiresAt : Z)
  (info : LoginInfo) : UserSession.t :=
  UserSession.mk (User.id u) token expiresAt (ipAddress info)
                 (userAgent info) (deviceId info).

(** The database after a successful [login] of [u]. *)
Definition logged_in (now : Z) (u : User.t) (username token : string)
  (hours : Z) (info : LoginInfo) (db : Db) : Db :=
  mkDb (Prisma.replace_user (User.id u) (set_lastLoginAt now u) (user db))
       (userSession db ++ [session_of u token (now + hours * Ms.hour) info])%list
       (userLoginLog db ++ [successful_attempt u username info])%list
       (userSeq db).

(** The first stored user holding the username or the email: the row
    [createUser] finds. *)
Definition colliding (uname mail : string) (db : Db) : option User.t :=
  List.find
    (fun u => String.eqb (User.username u) uname ||
              String.eqb (User.email u) mail)
    (user db).

(** A request body of [PUT /users/:id] that carries at most a nickname and
    an avatar. *)
Definition profile_only (nickname avatar : Js.value) : UpdateData.t :=
  UpdateData.mk Js.undefined Js.undefined nickname avatar Js.undefined
                Js.undefined Js.undefined Js.undefined.

(** The database once every row of [userId] is gone. *)
Definition cascade_deleted (userId : Z) (db : Db) : Db :=
  mkDb (List.filter (fun v => negb (Z.eqb (User.id v) userId)) (user db))
       (List.filter (fun s => negb (Z.eqb (UserSession.userId s) userId))
                    (userSession db))
       (List.filter
          (fun l => negb match UserLoginLog.userId l with
                         | Some i => Z.eqb i userId
                         | None => false
                         end)
          (userLoginLog db))
       (userSeq db).

(* ================================================================== *)
(** * The remaining handlers of [routes/auth.js] and [routes/user.js] *)

(** The [userData] object of [adminCreateUser]. *)
Module AdminUserData.
Record t : Type := mk {
  username : Js.value;
  email : Js.value;
  password : Js.value;
  nickname : Js.value;
  role : Js.value;
  status : Js.value;
  disabledRemark : Js.value;
  source : Js.value
}.
End AdminUserData.

Module Admin.
Section Methods.
Context `{Crypto}.

(** [UserModel.adminCreateUser(userData)]; [salt] is the value
    [bcrypt.genSalt] draws. *)
Definition adminCreateUser (salt : string) (userData : AdminUserData.t)
  : M User.t :=
  existingUser <-
    Prisma.user_findFirst
      (fun u => where_eq (AdminUserData.username userData) (User.username u) ||
                where_eq (AdminUserData.email userData) (User.email u)) ;;
  UserModel.report_existing existingUser (AdminUserData.username userData)
                            (AdminUserData.email userData) ;;
  match AdminUserData.username userData, AdminUserData.email userData,
        AdminUserData.password userData with
  | Js.str uname, Js.str mail, Js.str pw =>
      let passwordHash := bcrypt_hash pw salt in
      Prisma.user_create
        (fun id =>
           User.mk id uname mail passwordHash
                   (Some (Js.or_else (AdminUserData.nickname userData) uname))
                   None
                   (Js.or_else (AdminUserData.role userData) "user")
                   (Js.or_else (AdminUserData.status userData) "active")
                   (UpdateData.nullable (AdminUserData.disabledRemark userData)
                                        None)
                   (Js.or_else (AdminUserData.source userData)
                               "admin-created")
                   None)
  | _, _, _ => throw (Exn.Error "Invalid arguments")
  end.

End Methods.
End Admin.

Module Handlers.
Section Handlers.
Context `{Crypto} (env : Env).

(** [POST /auth/logout] after [authJWT]. *)
Definition logout (reqUser : Identity) (reqToken : string) : Handler :=
  try_catch
    (UserModel.logout (id reqUser) (Js.str reqToken) ;;
     ret (Http.mk 200 (Http.envelope 200 "登出成功")))
    (fun error =>
       ret (Http.mk 500 (Http.envelope 500 (message_or error "登出失败")))).

(** [POST /auth/logout-all] after [authJWT]. *)
Definition logout_all (reqUser : Identity) : Handler :=
  try_catch
    (UserModel.logout (id reqUser) Js.null ;;
     ret (Http.mk 200 (Http.envelope 200 "所有设备已登出")))
    (fun error =>
       ret (Http.mk 500 (Http.envelope 500 (message_or error "操作失败")))).

(** [GET /auth/me] after [authJWT]. *)
Definition me (reqUser : Identity) : Handler :=
  try_catch
    (userInfo <- UserModel.getUserInfo (id reqUser) ;;
     ret (Http.mk 200 (Http.user_json userInfo)))
    (fun error =>
       ret (Http.mk 500
              (Http.envelope 500 (message_or error "获取用户信息失败")))).

(** [DELETE /users/:id] after [authJWT] and [authorizeRoles]; [fault] is
    passed on to [deleteUser]. *)
Definition delete_user (fault : option nat) (reqUser : Identity)
  (params_id : string) : Handler :=
  try_catch
    (match Str.parseInt params_id with
     | None => ret (Http.mk 400 (Http.envelope 400 "无效的用户ID"))
     | Some userId =>
         if Z.eqb (id reqUser) userId
         then ret (Http.mk 400 (Http.envelope 400 "不能删除当前登录用户"))
         else
           forbidden <-
             (if String.eqb (role reqUser) "admin"
              then targetUser <- UserModel.getUserInfo userId ;;
                   ret (String.eqb (User.role targetUser) "superadmin")
              else ret false) ;;
           if forbidden : bool
           then ret (Http.mk 403
                       (Http.envelope 403 "权限不足，无法删除超级管理员"))
           else
             UserModel.deleteUser fault userId ;;
             ret (Http.mk 200 (Http.envelope 200 "删除成功"))
     end)
    (fun error =>
       if String.eqb (Exn.message error) "用户不存在"
       then ret (Http.mk 404 (Http.envelope 404 "用户不存在"))
       else ret (Http.mk 500
                   (Http.envelope 500 (message_or error "删除用户失败")))).

(** [PUT /users/me] after [authJWT]. *)
Definition update_me (salt : string) (reqUser : Identity)
  (nickname avatar password : Js.value) : Handler :=
  try_catch
    (if Js.truthy password && (Js.length (text password) <? 6)%nat
     then ret (Http.mk 400 (Http.envelope 400 "密码长度不能少于6位"))
     else
       let updateData :=
         UpdateData.mk Js.undefined Js.undefined nickname avatar Js.undefined
                       Js.undefined Js.undefined
                       (if Js.truthy password then password
                        else Js.undefined) in
       if Nat.eqb (UpdateData.keys updateData) 0
       then ret (Http.mk 400 (Http.envelope 400 "请提供要更新的字段"))
       else
         updatedUser <- UserModel.updateUser salt (id reqUser) updateData ;;
         ret (Http.mk 200 (Http.user_json updatedUser)))
    (fun error =>
       ret (Http.mk 400 (Http.envelope 400 (message_or error "更新失败")))).

(** [POST /users] after [authJWT] and [authorizeRoles]. *)
Definition create_user (salt : string)
  (username email password nickname role status disabledRemark : Js.value)
  : Handler :=
  try_catch
    (if negb (Js.truthy username) || negb (Js.truthy email) ||
        negb (Js.truthy password)
     then ret (Http.mk 200 (Http.envelope 400 "请提供用户名、邮箱和密码"))
     else if (Js.length (text password) <? 6)%nat
     then ret (Http.mk 200 (Http.envelope 400 "密码长度不能少于6位"))
     else
       user <-
         Admin.adminCreateUser salt
           (AdminUserData.mk username email password nickname role status
                             disabledRemark Js.undefined) ;;
       ret (Http.mk 200 (Http.user_json user)))
    (fun error =>
       ret (Http.mk 200 (Http.envelope 400 (message_or error "创建用户失败")))).

End Handlers.
End Handlers.

(* ================================================================== *)
(** * The [PUT] routes of [routes/user.js]

    Express tries the routes of a method in the order of their
    registration and runs the chain of the first whose path matches.  A
    later route is tried only when the chain calls [next()] past its last
    handler, which no handler of this router does. *)

(** What the [PUT] handlers read from [req.body]: the fields of
    [PUT /users/:id] and [PUT /users/me], and the two passwords of
    [PUT /users/change-password]. *)
Record PutBody : Type := mkPutBody {
  fields : UpdateData.t;
  currentPassword : Js.value;
  newPassword : Js.value
}.

Module UserRouter.

(** [router.put('/me')], [router.put('/:id')] and
    [router.put('/change-password')]. *)
Inductive route : Type :=
| put_me
| put_id
| put_change_password.

(** The three registrations in source order. *)
Definition puts : list route := [put_me; put_id; put_change_password].

(** Whether the path [/segment] matches the route: a fixed path is compared
    without regard to case, [:id] takes any segment. *)
Definition matches (r : route) (segment : string) : bool :=
  match r with
  | put_me => String.eqb (Str.lower segment) "me"
  | put_id => negb (String.eqb segment "")
  | put_change_password => String.eqb (Str.lower segment) "change-password"
  end.

Section Dispatch.
Context `{Crypto} (env : Env).

(** The chain of a route at time [now]: [authJWT], then [authorizeRoles]
    where the route names it, then the handler; [segment] is
    [req.params.id] for [put_id]. *)
Definition chain (r : route) (now : Z) (salt segment : string)
  (authHeader : option string) (body : PutBody) (ip ua : Js.value)
  : Handler :=
  auth <- authJWT env now authHeader ;;
  match auth with
  | Rejected response => ret response
  | Authenticated reqUser _ =>
      match r with
      | put_me =>
          Handlers.update_me salt reqUser
                             (UpdateData.nickname (fields body))
                             (UpdateData.avatar (fields body))
                             (UpdateData.password (fields body))
      | put_id =>
          match authorizeRoles ["admin"; "superadmin"] (Some reqUser) with
          | Some response => ret response
          | None => Routes.update salt reqUser segment (fields body)
          end
      | put_change_password =>
          Routes.change_password env now salt reqUser (currentPassword body)
                                 (newPassword body) ip ua
      end
  end.

(** [PUT /users/<segment>]: the response of the first matching route, or
    [None] when no route matches and the request is left to the rest of
    the application.  The segment holds no percent escape, so it is also
    the value of [req.params.id]. *)
Definition put (now : Z) (salt segment : string)
  (authHeader : option string) (body : PutBody) (ip ua : Js.value)
  : M (option Http.Response) :=
  match List.find (fun r => matches r segment) puts with
  | Some r =>
      response <- chain r now salt segment authHeader body ip ua ;;
      ret (Some response)
  | None => ret None
  end.

End Dispatch.
End UserRouter.

(* ================================================================== *)
(** * Product associations *)

(** A product attached to a user.  The [id] of a product is compared with
    [===]; ids are whole numbers, strings, or absent. *)
Module Product.

Inductive key : Type :=
| num (n : Z)
| str (s : string)
| absent.

(** [a === b] *)
Definition same (a b : key) : bool :=
  match a, b with
  | num x, num y => Z.eqb x y
  | str x, str y => String.eqb x y
  | absent, absent => true
  | _, _ => false
  end.

Record t : Type := mk {
  id : key;
  name : Js.value;
  joinedAt : string
}.

(** The [productInfo] object of [addUserProduct]: [req.body]. *)
Record Info : Type := mkInfo {
  info_id : key;
  info_name : Js.value
}.

End Product.

(** The [products] column of [prisma.user], kept beside the rows of [Db]:
    the list a user's column holds once it is read ([user.products || []],
    parsed when it is a string).  [JSON.parse] is taken to give back the
    list [JSON.stringify] was given. *)
Definition ProductsColumn : Type := Z -> list Product.t.

Definition set_products (userId : Z) (products : list Product.t)
  (column : ProductsColumn) : ProductsColumn :=
  fun i => if Z.eqb i userId then products else column i.

(** What [addUserProduct] and [removeUserProduct] select from the updated
    row. *)
Record ProductList : Type := mkProductList {
  list_id : Z;
  list_username : string;
  list_products : list Product.t
}.

Module ProductModel.

(** [UserModel.addUserProduct(userId, productInfo)]; [joinedAt] is
    [new Date().toISOString()]. *)
Definition addUserProduct (joinedAt : string) (userId : Z)
  (productInfo : Product.Info) (db : Db) (column : ProductsColumn)
  : outcome ProductList * ProductsColumn :=
  match List.find (fun u => Z.eqb (User.id u) userId) (user db) with
  | None => (Throw (Exn.Error "用户不存在"), column)
  | Some u =>
      let products := column userId in
      if List.existsb
           (fun p => Product.same (Product.id p) (Product.info_id productInfo))
           products
      then (Throw (Exn.Error "产品已关联"), column)
      else
        let products :=
          (products ++
             [Product.mk (Product.info_id productInfo)
                         (Product.info_name productInfo) joinedAt])%list in
        (Return (mkProductList (User.id u) (User.username u) products),
         set_products userId products column)
  end.

(** [UserModel.removeUserProduct(userId, productId)] *)
Definition removeUserProduct (userId : Z) (productId : Product.key)
  (db : Db) (column : ProductsColumn)
  : outcome ProductList * ProductsColumn :=
  match List.find (fun u => Z.eqb (User.id u) userId) (user db) with
  | None => (Throw (Exn.Error "用户不存在"), column)
  | Some u =>
      let products := column userId in
      let filteredProducts :=
        List.filter
          (fun p => negb (Product.same (Product.id p) productId)) products in
      if Nat.eqb (List.length filteredProducts) (List.length products)
      then (Throw (Exn.Error "产品关联不存在"), column)
      else
        (Return (mkProductList (User.id u) (User.username u) filteredProducts),
         set_products userId filteredProducts column)
  end.

End ProductModel.

(** What the product routes answer: the transport status and the fields of
    the JSON body. *)
Record ProductReply : Type := mkProductReply {
  reply_status : Z;
  reply_code : Z;
  reply_message : string;
  reply_data : option ProductList;
  reply_error : option string
}.

Module ProductRoutes.

(** The roles both product routes name in [authorizeRoles('admin', 'user')]. *)
Definition roles : list string := ["admin"; "user"].

(** The [catch] block shared in shape by both product routes. *)
Definition failure (known : string) (error : Exn.t) : ProductReply :=
  if String.eqb (Exn.message error) "用户不存在"
  then mkProductReply 404 404 (Exn.message error) None None
  else if String.eqb (Exn.message error) known
  then mkProductReply 400 400 (Exn.message error) None None
  else mkProductReply 500 500 "服务器错误" None (Some (Exn.message error)).

(** [currentUser.role !== 'admin' && currentUser.id !== parseInt(userId)] *)
Definition denied (currentUser : Identity) (params_userId : string) : bool :=
  negb (String.eqb (role currentUser) "admin") &&
  negb match Str.parseInt params_userId with
       | Some i => Z.eqb (id currentUser) i
       | None => false
       end.

(** [POST /users/:userId/products] after [authJWT] and [authorizeRoles].
    Prisma rejects the [NaN] user id of a path that is not a number. *)
Definition add (joinedAt : string) (currentUser : Identity)
  (params_userId : string) (productInfo : Product.Info) (db : Db)
  (column : ProductsColumn) : ProductReply * ProductsColumn :=
  if denied currentUser params_userId
  then (mkProductReply 403 403 "权限不足" None None, column)
  else
    match Str.parseInt params_userId with
    | None =>
        (failure "产品已关联" (Exn.PrismaError "Invalid value for argument id"),
         column)
    | Some userId =>
        match ProductModel.addUserProduct joinedAt userId productInfo db
                                          column with
        | (Return result, column') =>
            (mkProductReply 200 200 "产品关联成功" (Some result) None, column')
        | (Throw error, column') => (failure "产品已关联" error, column')
        end
    end.

(** [DELETE /users/:userId/products/:productId] after [authJWT] and
    [authorizeRoles]; the product id of the path is a string. *)
Definition remove (currentUser : Identity) (params_userId : string)
  (params_productId : string) (db : Db) (column : ProductsColumn)
  : ProductReply * ProductsColumn :=
  if denied currentUser params_userId
  then (mkProductReply 403 403 "权限不足" None None, column)
  else
    match Str.parseInt params_userId with
    | None =>
        (failure "产品关联不存在"
                 (Exn.PrismaError "Invalid value for argument id"),
         column)
    | Some userId =>
        match ProductModel.removeUserProduct
                userId (Product.str params_productId) db column with
        | (Return result, column') =>
            (mkProductReply 200 200 "产品关联移除成功" (Some result) None,
             column')
        | (Throw error, column') => (failure "产品关联不存在" error, column')
        end
    end.

End ProductRoutes.

(* ================================================================== *)
(** * [middleware/timestamp.middleware.js] *)

Module Timestamp.

Local Unset Elimination Schemes.

(** What a handler passes to [res.json]: JSON values, and [Date] objects
    given by their time in milliseconds.  Numbers are whole. *)
Inductive value : Type :=
| null
| undefined
| bool (b : Datatypes.bool)
| num (n : Z)
| str (s : string)
| date (ms : Z)
| arr (items : list value)
| obj (fields : list (string * value)).

(** [transformedObj[key] = ...] gives the fresh object an own property,
    except under the key [__proto__]: there the assignment goes to the
    setter of [Object.prototype] and no own property appears. *)
Definition assignable (key : string) : Datatypes.bool :=
  negb (String.eqb key "__proto__").

(** [transformDateTimeToTimestamp(obj)]; an object is given by its own
    enumerable properties in the order [for ... in] visits them. *)
Fixpoint transformDateTimeToTimestamp (v : value) : value :=
  match v with
  | date ms => num (ms / 1000)
  | arr items => arr (List.map transformDateTimeToTimestamp items)
  | obj fields =>
      obj (List.flat_map
             (fun kv => match kv with
                        | (key, x) =>
                            if assignable key
                            then [(key, transformDateTimeToTimestamp x)]
                            else []
                        end)
             fields)
  | other => other
  end.

(** No object anywhere in the value has an own property [__proto__]. *)
Fixpoint plain (v : value) : Datatypes.bool :=
  match v with
  | arr items => List.forallb plain items
  | obj fields =>
      List.forallb
        (fun kv => match kv with (key, x) => assignable key && plain x end)
        fields
  | _ => true
  end.

(** Whether a [Date] occurs anywhere in a value. *)
Fixpoint has_date (v : value) : Datatypes.bool :=
  match v with
  | date _ => true
  | arr items => List.existsb has_date items
  | obj fields =>
      List.existsb (fun kv => match kv with (_, x) => has_date x end) fields
  | _ => false
  end.

(** A value with every leaf erased: what is left is the nesting, the
    lengths of the arrays and the keys of the objects in their order. *)
Fixpoint skeleton (v : value) : value :=
  match v with
  | arr items => arr (List.map skeleton items)
  | obj fields =>
      obj (List.map
             (fun kv => match kv with (key, x) => (key, skeleton x) end)
             fields)
  | _ => null
  end.

(** The value at a position: each step of the path is the index of an
    item of an array or of a field of an object. *)
Fixpoint at_path (path : list nat) (v : value) : option value :=
  match path with
  | [] => Some v
  | i :: rest =>
      match v with
      | arr items =>
          match List.nth_error items i with
          | Some x => at_path rest x
          | None => None
          end
      | obj fields =>
          match List.nth_error fields i with
          | Some (_, x) => at_path rest x
          | None => None
          end
      | _ => None
      end
  end.

(** A value that is neither a [Date] nor an array nor an object. *)
Definition is_scalar (v : value) : Datatypes.bool :=
  match v with
  | date _ | arr _ | obj _ => false
  | _ => true
  end.

End Timestamp.

(** A second concrete world: a root administrator and an ordinary admin
    beside Alice and Bob. *)
Module Scenario.

Definition root : User.t :=
  User.mk 9 "root" "root@x.com" "salt$toor1234" None None "superadmin"
          "active" None "seed" None.

Definition dana : User.t :=
  User.mk 4 "dana" "dana@x.com" "salt$dana5678" None None "admin" "active"
          None "admin-created" None.

Definition db : Db :=
  mkDb [Fixture.alice; Fixture.bob; dana; root]
       [Fixture.alice_session; Fixture.bob_session]
       [Fixture.bob_log; Fixture.anonymous_log] 10.

Definition book : Product.t :=
  Product.mk (Product.num 5) (Js.str "book") "2024-01-01T00:00:00.000Z".

Definition pen : Product.t :=
  Product.mk (Product.str "pen") (Js.str "pen") "2024-01-02T00:00:00.000Z".

Definition column : ProductsColumn :=
  fun i => if Z.eqb i 1 then [book; pen] else [].

End Scenario.

(* ================================================================== *)
(** * Vocabulary of the further statements *)

(** The session rows a [logout(userId, token)] deletes. *)
Definition revoked (userId : Z) (t : Js.value) (s : UserSession.t) : bool :=
  match t with
  | Js.str tok =>
      if String.eqb tok "" then Z.eqb (UserSession.userId s) userId
      else Z.eqb (UserSession.userId s) userId &&
           String.eqb (UserSession.token s) tok
  | _ => Z.eqb (UserSession.userId s) userId
  end.

(** A user row without its last-login stamp. *)
Definition forget_last_login (u : User.t) : User.t :=
  User.mk (User.id u) (User.username u) (User.email u) (User.passwordHash u)
          (User.nickname u) (User.avatar u) (User.role u) (User.status u)
          (User.disabledRemark u) (User.source u) None.

(** Usernames and emails are pairwise distinct. *)
Definition names_unique (db : Db) : Prop :=
  List.NoDup (List.map User.username (user db)) /\
  List.NoDup (List.map User.email (user db)).

(** A user row without what the user may edit: nickname, avatar and
    password hash. *)
Definition forget_profile (u : User.t) : User.t :=
  User.mk (User.id u) (User.username u) (User.email u) "" None None
          (User.role u) (User.status u) (User.disabledRemark u)
          (User.source u) (User.lastLoginAt u).

(** Unfolds one layer of the asynchronous plumbing. *)
Ltac run :=
  unfold try_catch, bind, ret, throw, lift,
         Prisma.user_findUnique, Prisma.user_findFirst,
         Prisma.userSession_findFirst; cbn beta iota.

(* ================================================================== *)
(** * The asynchronous plumbing *)

Lemma bind_returns {A B} (c : M A) (k : A -> M B) db a db' :
  c db = (Return a, db') -> bind c k db = k a db'.
Proof. unfold bind. now intros ->. Qed.

Lemma bind_throws {A B} (c : M A) (k : A -> M B) db e db' :
  c db = (Throw e, db') -> bind c k db = (Throw e, db').
Proof. unfold bind. now intros ->. Qed.

Lemma eqb_false_of_neq (a b : string) : a <> b -> String.eqb a b = false.
Proof. intro Hne. now apply String.eqb_neq. Qed.

Lemma find_app_none {A} (p : A -> bool) (l l' : list A) :
  List.find p l = None -> List.find p (l ++ l') = List.find p l'.
Proof.
  induction l as [|a l IH]; [reflexivity|].
  cbn. destruct (p a); [discriminate | exact IH].
Qed.

(* ================================================================== *)
(** * The string primitives at telling inputs *)

(** [parseInt] reads a [0x] prefix as radix 16, gives [NaN] without a
    digit, skips white space, stops at the first character that is no
    digit, and rounds beyond 53 bits. *)
Lemma parseInt_samples :
  Str.parseInt "0x2" = Some 2 /\
  Str.parseInt "0x" = None /\
  Str.parseInt "0X1f" = Some 31 /\
  Str.parseInt "  -12px" = Some (-12) /\
  Str.parseInt "change-password" = None /\
  Str.parseInt "9007199254740993" = Some 9007199254740992.
Proof. repeat split. Qed.

(** [length] counts UTF-16 units: five for five CJK characters of three
    bytes each, two for one character outside the basic plane. *)
Lemma length_samples :
  Js.length "secret" = 6%nat /\
  Js.length "密码密码密" = 5%nat /\
  Js.length "𝒳" = 2%nat.
Proof. repeat split. Qed.

(** [ms] takes units in either case and decimal numerals. *)
Lemma ms_samples :
  Ms.ms "7d" = Some (Ms.mkSpan 604800000 1) /\
  Ms.ms "24H" = Some (Ms.mkSpan 86400000 1) /\
  Ms.ms "1.5h" = Some (Ms.mkSpan 54000000 10) /\
  Ms.timespan "1.5h" 1000 = Some 6400 /\
  Ms.ms "1 day later" = None.
Proof. repeat split. Qed.

(* ================================================================== *)
(** * Token validation *)

Section TokenValidation.
Context `{Crypto} (env : Env).

(** [authJWT] on a header whose token verifies. *)
Lemma authJWT_verified now h claims db :
  h <> "" ->
  bearer h <> "" ->
  jwt_verify (bearer h) (JWT_SECRET env) now = Return claims ->
  authJWT env now (Some h) db =
  (Return
     match owner claims db with
     | None => UserInactive
     | Some u =>
         if negb (String.eqb (User.status u) "active") then UserInactive
         else match live_session now u (bearer h) db with
              | None => SessionRevoked
              | Some _ => Authenticated (identity_of u) (bearer h)
              end
     end, db).
Proof.
  intros Hh Htok Hver.
  unfold authJWT, owner, by_id, live_session, bearer in *. run.
  rewrite (eqb_false_of_neq _ _ Hh), (eqb_false_of_neq _ _ Htok), Hver.
  destruct (List.find _ (user db)) as [u|]; [|reflexivity].
  destruct (negb (String.eqb (User.status u) "active")); [reflexivity|].
  destruct (List.find _ (userSession db)); reflexivity.
Qed.

(** C1, as amended.  For a presented token whose signature verifies and
    whose encoded expiry has not passed, [authJWT] re-fetches the owning
    user before it looks for the session row: when the user is missing or
    not active it answers UserInactive whatever the session table holds;
    when the user is active and no unexpired session row of that user
    holds the token it answers SessionRevoked; and SessionRevoked is
    answered only for a stored, active user. *)
Theorem authJWT_user_stage_precedes_session_stage now h claims db :
  h <> "" ->
  bearer h <> "" ->
  jwt_verify (bearer h) (JWT_SECRET env) now = Return claims ->
  ((forall u, owner claims db = Some u -> User.status u <> "active") ->
   authJWT env now (Some h) db = (Return UserInactive, db)) /\
  (forall u, owner claims db = Some u -> User.status u = "active" ->
             live_session now u (bearer h) db = None ->
             authJWT env now (Some h) db = (Return SessionRevoked, db)) /\
  (fst (authJWT env now (Some h) db) = Return SessionRevoked ->
   exists u, owner claims db = Some u /\ User.status u = "active" /\
             live_session now u (bearer h) db = None).
Proof.
  intros Hh Htok Hver.
  rewrite (authJWT_verified now h claims db Hh Htok Hver).
  split; [|split].
  - intros Hbad. destruct (owner claims db) as [u|]; [|reflexivity].
    rewrite (eqb_false_of_neq _ _ (Hbad u eq_refl)). reflexivity.
  - intros u Hu Hact Hnone. rewrite Hu, Hact, Hnone. reflexivity.
  - cbn [fst]. destruct (owner claims db) as [u|]; [|discriminate].
    destruct (String.eqb (User.status u) "active") eqn:Hact;
      cbn [negb]; [|discriminate].
    destruct (live_session now u (bearer h) db) eqn:Hs; [discriminate|].
    intros _. exists u. apply String.eqb_eq in Hact. auto.
Qed.

(** [authJWT] always comes to a verdict and writes nothing. *)
Lemma authJWT_returns now authHeader db :
  exists verdict, authJWT env now authHeader db = (Return verdict, db).
Proof.
  unfold authJWT. run.
  destruct authHeader as [h|]; [|eexists; reflexivity].
  destruct (String.eqb h ""); [eexists; reflexivity|].
  destruct (String.eqb (Str.remove_first "Bearer " h) "");
    [eexists; reflexivity|].
  destruct (jwt_verify _ _ now) as [claims|e].
  - destruct (List.find _ (user db)) as [u|]; [|eexists; reflexivity].
    destruct (negb (String.eqb (User.status u) "active"));
      [eexists; reflexivity|].
    destruct (List.find _ (userSession db)); eexists; reflexivity.
  - destruct (String.eqb (Exn.name e) "JsonWebTokenError");
      [eexists; reflexivity|].
    destruct (String.eqb (Exn.name e) "TokenExpiredError");
      eexists; reflexivity.
Qed.

(** A request let through by [authJWT], taken apart. *)
Lemma authJWT_authenticated_inv now authHeader db u tok db' :
  authJWT env now authHeader db = (Return (Authenticated u tok), db') ->
  exists claims row s,
    jwt_verify tok (JWT_SECRET env) now = Return claims /\
    owner claims db = Some row /\ u = identity_of row /\
    User.status row = "active" /\
    live_session now row tok db = Some s /\ db' = db.
Proof.
  unfold authJWT, owner, by_id, live_session. run. intros Hrun.
  destruct authHeader as [h|]; [|discriminate].
  destruct (String.eqb h ""); [discriminate|].
  destruct (String.eqb (Str.remove_first "Bearer " h) ""); [discriminate|].
  destruct (jwt_verify _ _ now) as [claims|e] eqn:Hver.
  - destruct (List.find _ (user db)) as [row|] eqn:Hrow; [|discriminate].
    destruct (String.eqb (User.status row) "active") eqn:Hact;
      cbn [negb] in Hrun; [|discriminate].
    destruct (List.find _ (userSession db)) as [s|] eqn:Hs; [|discriminate].
    injection Hrun as <- <- <-.
    exists claims, row, s. apply String.eqb_eq in Hact.
    repeat split; assumption || reflexivity.
  - destruct (String.eqb (Exn.name e) "JsonWebTokenError"); [discriminate|].
    destruct (String.eqb (Exn.name e) "TokenExpiredError"); discriminate.
Qed.

End TokenValidation.

(* ================================================================== *)
(** * Login *)

Section Login.
Context `{Crypto} (env : Env).

Lemma login_unknown_user now username password info db :
  resolve username db = None ->
  UserModel.login env now username password info db =
  (Throw InvalidCredentials,
   logged (failed_attempt None username info "用户不存在") db).
Proof.
  unfold resolve, UserModel.login, UserModel.saveLoginLog. run.
  intros ->. reflexivity.
Qed.

Lemma login_disabled_account now username password info db u :
  resolve username db = Some u ->
  User.status u <> "active" ->
  UserModel.login env now username password info db =
  (Throw AccountDisabled,
   logged (failed_attempt (Some (User.id u)) username info "用户已被禁用") db).
Proof.
  unfold resolve, UserModel.login, UserModel.saveLoginLog. run.
  intros -> Hst. rewrite (eqb_false_of_neq _ _ Hst). reflexivity.
Qed.

Lemma login_wrong_password now username password info db u :
  resolve username db = Some u ->
  User.status u = "active" ->
  bcrypt_compare password (User.passwordHash u) = false ->
  UserModel.login env now username password info db =
  (Throw InvalidCredentials,
   logged (failed_attempt (Some (User.id u)) username info "密码错误") db).
Proof.
  unfold resolve, UserModel.login, UserModel.saveLoginLog. run.
  intros -> -> ->. reflexivity.
Qed.

(** C3, as amended.  For a stored user that the name resolves to: when
    the user is active and the password does not match the stored hash,
    login fails with InvalidCredentials; when the user is not active,
    login fails with AccountDisabled whether or not the password matches,
    because the status is checked before the password. *)
Theorem login_checks_status_before_password
  now username password info db u :
  resolve username db = Some u ->
  (User.status u = "active" ->
   bcrypt_compare password (User.passwordHash u) = false ->
   fst (UserModel.login env now username password info db)
     = Throw InvalidCredentials) /\
  (User.status u <> "active" ->
   fst (UserModel.login env now username password info db)
     = Throw AccountDisabled).
Proof.
  intros Hu. split.
  - intros Hact Hpw.
    now rewrite (login_wrong_password now _ _ info db u Hu Hact Hpw).
  - intros Hst.
    now rewrite (login_disabled_account now _ password info db u Hu Hst).
Qed.

(** The response of [POST /auth/login] when [UserModel.login] throws. *)
Lemma login_route_failure now username password ip ua db e db' :
  username <> "" -> password <> "" ->
  UserModel.login env now username password
                  (mkLoginInfo ip ua Js.undefined) db = (Throw e, db') ->
  Routes.login env now (Js.str username) (Js.str password) ip ua db =
  (Return (Http.mk 200
             (Http.envelope 401 (message_or e "用户名或密码错误"))), db').
Proof.
  intros Hu Hp Hlogin. unfold Routes.login. run. cbn [Js.truthy text].
  rewrite (eqb_false_of_neq _ _ Hu), (eqb_false_of_neq _ _ Hp).
  cbn [negb orb]. rewrite Hlogin. reflexivity.
Qed.

(** C4.  A failed login against an existing active user with a wrong
    password and a failed login with a name that resolves to no user give
    the same InvalidCredentials failure: [login] throws the same error in
    both runs, and when the requests carry both fields the login route
    answers both with the same response. *)
Theorem login_failures_indistinguishable
  now1 now2 db1 db2 u username1 password1 username2 password2
  ip1 ua1 ip2 ua2 :
  resolve username1 db1 = Some u ->
  User.status u = "active" ->
  bcrypt_compare password1 (User.passwordHash u) = false ->
  resolve username2 db2 = None ->
  fst (UserModel.login env now1 username1 password1
                       (mkLoginInfo ip1 ua1 Js.undefined) db1)
    = Throw InvalidCredentials /\
  fst (UserModel.login env now2 username2 password2
                       (mkLoginInfo ip2 ua2 Js.undefined) db2)
    = Throw InvalidCredentials /\
  (username1 <> "" -> password1 <> "" ->
   username2 <> "" -> password2 <> "" ->
   fst (Routes.login env now1 (Js.str username1) (Js.str password1)
                     ip1 ua1 db1)
     = Return (Http.mk 200
                 (Http.envelope 401 (Exn.message InvalidCredentials))) /\
   fst (Routes.login env now2 (Js.str username2) (Js.str password2)
                     ip2 ua2 db2)
     = fst (Routes.login env now1 (Js.str username1) (Js.str password1)
                         ip1 ua1 db1)).
Proof.
  intros Hres Hact Hpw Hnone.
  pose proof (login_wrong_password now1 username1 password1
                (mkLoginInfo ip1 ua1 Js.undefined) db1 u Hres Hact Hpw) as E1.
  pose proof (login_unknown_user now2 username2 password2
                (mkLoginInfo ip2 ua2 Js.undefined) db2 Hnone) as E2.
  rewrite E1, E2. split; [reflexivity|]. split; [reflexivity|].
  intros Hu1 Hp1 Hu2 Hp2.
  rewrite (login_route_failure _ _ _ _ _ _ _ _ Hu1 Hp1 E1).
  rewrite (login_route_failure _ _ _ _ _ _ _ _ Hu2 Hp2 E2).
  split; reflexivity.
Qed.

(** C9, as amended.  A login attempt that carries a non-empty username
    and a non-empty password and fails, because the name resolves to no
    user, because the account is not active, or because the password
    does not match, is answered with transport status 200 and an envelope
    whose code is 401; so is every other error [login] throws for such a
    request.  An attempt in which the username or the password is missing
    or empty is answered with status 400 and code 400 before any lookup,
    and writes nothing. *)
Theorem login_failures_are_200_with_code_401_or_400 now ip ua db :
  (forall username password,
      username <> "" -> password <> "" ->
      (resolve username db = None \/
       (exists u, resolve username db = Some u /\
                  (User.status u <> "active" \/
                   bcrypt_compare password (User.passwordHash u) = false)) ->
       exists message,
         fst (Routes.login env now (Js.str username) (Js.str password)
                           ip ua db)
           = Return (Http.mk 200 (Http.envelope 401 message)) /\
         (message = Exn.message InvalidCredentials \/
          message = Exn.message AccountDisabled)) /\
      (forall e db',
          UserModel.login env now username password
                          (mkLoginInfo ip ua Js.undefined) db
            = (Throw e, db') ->
          Routes.login env now (Js.str username) (Js.str password) ip ua db
            = (Return (Http.mk 200
                         (Http.envelope 401
                            (message_or e "用户名或密码错误"))), db'))) /\
  (forall username password,
      Js.truthy username = false \/ Js.truthy password = false ->
      Routes.login env now username password ip ua db
        = (Return (Http.mk 400 (Http.envelope 400 "用户名和密码为必填项")),
           db)).
Proof.
  split.
  - intros username password Hu Hp. split.
    + intros Hfail.
      assert (exists e db',
                 UserModel.login env now username password
                   (mkLoginInfo ip ua Js.undefined) db = (Throw e, db') /\
                 (e = InvalidCredentials \/ e = AccountDisabled))
        as (e & db' & Hlogin & He).
      { destruct Hfail as [Hnone | (u & Hres & Hbad)].
        - eexists _, _. split; [apply login_unknown_user; exact Hnone | auto].
        - destruct (String.eqb (User.status u) "active") eqn:Hact.
          + apply String.eqb_eq in Hact. destruct Hbad as [Hst | Hpw];
              [contradiction|].
            eexists _, _. split;
              [apply (login_wrong_password _ _ _ _ _ u); assumption | auto].
          + apply String.eqb_neq in Hact.
            eexists _, _. split;
              [apply (login_disabled_account _ _ _ _ _ u); assumption
              | auto]. }
      rewrite (login_route_failure _ _ _ _ _ _ _ _ Hu Hp Hlogin).
      exists (message_or e "用户名或密码错误"). split; [reflexivity|].
      destruct He as [-> | ->]; [left | right]; reflexivity.
    + intros e db' Hlogin.
      exact (login_route_failure _ _ _ _ _ _ _ _ Hu Hp Hlogin).
  - intros username password Hmissing.
    unfold Routes.login, try_catch, ret.
    destruct Hmissing as [-> | ->]; cbn [negb orb];
      rewrite ?Bool.orb_true_r; reflexivity.
Qed.

End Login.
Section LoginSuccess.
Context `{Crypto} (env : Env).


(** A returned [login], taken apart as far as the token and the session
    table go. *)
Lemma login_returned_inv now username password info db r db' :
  UserModel.login env now username password info db = (Return r, db') ->
  exists u exp hours,
    resolve username db = Some u /\
    Ms.timespan (JWT_EXPIRES_IN env) (now / 1000) = Some exp /\
    session_hours env = Some hours /\
    r = mkLoginResult
          (identity_of u)
          (jws_sign (Jwt.mk (User.id u) (User.username u) (User.role u)
                            (now / 1000) exp)
                    (JWT_SECRET env)) /\
    userSession db' =
      (userSession db ++
         [session_of u (result_token r) (now + hours * Ms.hour) info])%list.
Proof.
  unfold resolve, session_hours, UserModel.login, UserModel.saveLoginLog,
    jwt_sign. run.
  intros Hrun.
  destruct (List.find _ (user db)) as [u|]; [|discriminate].
  destruct (negb (String.eqb (User.status u) "active")); [discriminate|].
  destruct (negb (bcrypt_compare password (User.passwordHash u)));
    [discriminate|].
  destruct (Ms.timespan (JWT_EXPIRES_IN env) (now / 1000)) as [exp|];
    [|discriminate].
  destruct (Str.match_digits (JWT_EXPIRES_IN env)) as [h|]; [|discriminate].
  destruct (Str.parseInt h) as [n|]; [|discriminate].
  unfold Prisma.userSession_create, Prisma.user_update,
    Prisma.userLoginLog_create in Hrun.
  destruct (Prisma.token_unique_ok _ db); [|discriminate].
  cbn [user with_userSession] in Hrun.
  destruct (List.find _ (user db)) as [row|]; [|discriminate].
  destruct (Prisma.user_unique_ok _ _ _ _); [|discriminate].
  injection Hrun as <- <-.
  exists u, exp, n. repeat split.
Qed.




(** [timespan] of a span that is a whole number of milliseconds. *)
Lemma timespan_whole expiresIn millis iat :
  Ms.ms expiresIn = Some (Ms.mkSpan millis 1) ->
  millis mod 1000 = 0 ->
  Ms.timespan expiresIn iat = Some (iat + millis / 1000).
Proof.
  intros Hms Hmod. unfold Ms.timespan. rewrite Hms.
  cbn [Ms.scale Ms.millis]. f_equal.
  rewrite Z.mul_1_r. rewrite Z.div_add_l by lia. reflexivity.
Qed.

(** With the documented configuration of twenty-four hours the token and
    the session row expire together, up to the rounding of the issue time
    to the second. *)
Lemma session_expiry_for_24h now username password info db r db' :
  JWT_EXPIRES_IN env = "24h" ->
  UserModel.login env now username password info db = (Return r, db') ->
  exists u s,
    result_token r =
      jws_sign (Jwt.mk (User.id u) (User.username u) (User.role u)
                       (now / 1000) (now / 1000 + 86400))
               (JWT_SECRET env) /\
    userSession db' = (userSession db ++ [s])%list /\
    UserSession.expiresAt s = now + 86400 * 1000.
Proof.
  intros Httl Hrun.
  destruct (login_returned_inv _ _ _ _ _ _ _ Hrun)
    as (u & span & hours & _ & Hspan & Hhours & -> & Hs).
  unfold session_hours in Hhours. rewrite Httl in Hspan, Hhours.
  rewrite (timespan_whole "24h" 86400000) in Hspan by reflexivity.
  vm_compute in Hhours.
  injection Hspan as <-. injection Hhours as <-.
  exists u. eexists. split; [reflexivity|]. split; [exact Hs|].
  cbn [UserSession.expiresAt session_of].
  unfold Ms.hour, Ms.minute, Ms.second. lia.
Qed.

(** C5, at the configuration that refutes it.  With [JWT_EXPIRES_IN] set
    to seven days, every successful login signs a token that expires
    seven days after the issue second, and stores a session row that
    expires seven hours after the issue time. *)
Theorem session_expiry_reads_days_as_hours
  now username password info db r db' :
  JWT_EXPIRES_IN env = "7d" ->
  UserModel.login env now username password info db = (Return r, db') ->
  exists u s,
    result_token r =
      jws_sign (Jwt.mk (User.id u) (User.username u) (User.role u)
                       (now / 1000) (now / 1000 + 7 * 86400))
               (JWT_SECRET env) /\
    userSession db' = (userSession db ++ [s])%list /\
    UserSession.token s = result_token r /\
    UserSession.expiresAt s = now + 7 * 3600000 /\
    UserSession.expiresAt s <> now + 7 * 86400000.
Proof.
  intros Httl Hrun.
  destruct (login_returned_inv _ _ _ _ _ _ _ Hrun)
    as (u & span & hours & _ & Hspan & Hhours & -> & Hs).
  unfold session_hours in Hhours. rewrite Httl in Hspan, Hhours.
  rewrite (timespan_whole "7d" 604800000) in Hspan by reflexivity.
  vm_compute in Hhours.
  injection Hspan as <-. injection Hhours as <-.
  exists u. eexists. split; [reflexivity|]. split; [exact Hs|].
  cbn [UserSession.token UserSession.expiresAt session_of].
  split; [reflexivity|]. split; [reflexivity|].
  unfold Ms.hour, Ms.minute, Ms.second. lia.
Qed.

End LoginSuccess.
(* ================================================================== *)
(** * Rows replaced in place *)





(* ================================================================== *)
(** * Changing the password *)

Section ChangePassword.
Context `{Crypto} (env : Env).

(** X31.  No [PUT] path reaches the change-password route: for every
    path segment, in whatever case it is written, the first registered
    route that matches is [put_me] or [put_id]; only the empty segment
    matches no route at all. *)
Theorem change_password_route_never_first segment :
  List.find (fun r => UserRouter.matches r segment) UserRouter.puts
    = Some UserRouter.put_me \/
  List.find (fun r => UserRouter.matches r segment) UserRouter.puts
    = Some UserRouter.put_id \/
  (segment = "" /\
   List.find (fun r => UserRouter.matches r segment) UserRouter.puts = None).
Proof.
  unfold UserRouter.puts. cbn [List.find UserRouter.matches].
  destruct (String.eqb (Str.lower segment) "me"); [now left|].
  destruct (String.eqb segment "") eqn:Hempty; cbn [negb];
    [|now right; left].
  apply String.eqb_eq in Hempty. subst segment. right. right.
  split; reflexivity.
Qed.

(** C2, at the router.  A [PUT /users/change-password] request never
    reaches the handler registered for it: [PUT /users/:id] is registered
    first, matches the path and answers.  Whatever the header and the
    body, the request is answered and the database is left as it was, so
    no password hash is stored and no session row is deleted or created:
    the answer is the rejection of [authJWT], or 403 for a caller who is
    neither admin nor superadmin, or the 400 for a path that is no user
    id. *)
Theorem change_password_route_is_shadowed
  now salt authHeader body ip ua db :
  exists response,
    UserRouter.put env now salt "change-password" authHeader body ip ua db
      = (Return (Some response), db) /\
    match fst (authJWT env now authHeader db) with
    | Return (Rejected r) => response = r
    | Return (Authenticated reqUser _) =>
        if (String.eqb (role reqUser) "admin" ||
            String.eqb (role reqUser) "superadmin")%bool
        then response = Http.mk 400 (Http.envelope 400 "无效的用户ID")
        else response = Http.mk 403 (Http.message_only "权限不足")
    | Throw _ => False
    end.
Proof.
  unfold UserRouter.put.
  change (List.find (fun r => UserRouter.matches r "change-password")
                    UserRouter.puts)
    with (Some UserRouter.put_id).
  unfold UserRouter.chain. unfold bind at 1 2.
  destruct (authJWT_returns env now authHeader db) as [verdict Hauth].
  rewrite Hauth. cbn [fst]. destruct verdict as [r|reqUser tok].
  - eexists. split; reflexivity.
  - unfold authorizeRoles. cbn [List.existsb].
    rewrite Bool.orb_false_r.
    destruct (String.eqb (role reqUser) "admin" ||
              String.eqb (role reqUser) "superadmin")%bool.
    + unfold Routes.update, try_catch, bind, ret.
      change (Str.parseInt "change-password") with (@None Z).
      eexists. split; reflexivity.
    + eexists. split; reflexivity.
Qed.

End ChangePassword.

(* ================================================================== *)
(** * Administration *)

Section Administration.
Context `{Crypto}.

(** C6, at the requests that refute it.  An admin update that carries
    neither a status nor a remark, only a nickname or an avatar, sets
    the stored disabled remark to [null] and leaves the status as it is:
    a blocked user loses the remark while staying blocked. *)
Theorem update_without_status_clears_remark
  salt reqUser params_id userId nickname avatar db u remark :
  Str.parseInt params_id = Some userId ->
  role reqUser <> "admin" \/ User.role u <> "superadmin" ->
  by_id userId db = Some u ->
  Prisma.user_unique_ok userId (User.username u) (User.email u) db = true ->
  User.disabledRemark u = Some remark ->
  remark <> "" ->
  exists row,
    Routes.update salt reqUser params_id (profile_only nickname avatar) db =
      (Return (Http.mk 200 (Http.user_json row)),
       with_user (Prisma.replace_user userId row) db) /\
    User.status row = User.status u /\
    User.disabledRemark row = None.
Proof.
  intros Hid Hrole Hu Huniq Hremark Hne.
  exists (UpdateData.apply
            (UpdateData.set_disabledRemark Js.null
               (profile_only nickname avatar)) None u).
  split; [|split; reflexivity].
  unfold Routes.update, Routes.clear_remark, UserModel.getUserInfo,
    UserModel.updateUser, profile_only. run.
  unfold by_id in Hu. rewrite Hid. cbn beta iota.
  assert (String.eqb (role reqUser) "admin" = true ->
          String.eqb (User.role u) "superadmin" = false) as Hforbidden.
  { intros Hadmin. apply String.eqb_eq in Hadmin.
    destruct Hrole as [Hr|Hr]; [contradiction|].
    now apply String.eqb_neq. }
  destruct (String.eqb (role reqUser) "admin");
    cbn beta iota; rewrite ?Hu; cbn beta iota;
    rewrite ?(Hforbidden eq_refl); cbn beta iota;
    cbn [UpdateData.status UpdateData.disabledRemark Js.is_str Js.truthy
         Js.defined negb andb];
    rewrite Hu; cbn beta iota; rewrite Hremark; cbn [Js.of_column Js.truthy];
    rewrite (eqb_false_of_neq _ _ Hne); cbn [negb];
    unfold UpdateData.keys, UpdateData.set_disabledRemark;
    cbn [UpdateData.username UpdateData.email UpdateData.nickname
         UpdateData.avatar UpdateData.role UpdateData.status
         UpdateData.disabledRemark UpdateData.password UpdateData.count
         Js.defined Js.truthy orb negb UpdateData.valid];
    (replace (Nat.eqb _ 0) with false
      by (destruct nickname, avatar; reflexivity));
    unfold Prisma.user_update; rewrite Hu;
    cbn [UpdateData.apply UpdateData.required UpdateData.username
         UpdateData.email User.username User.email];
    rewrite Huniq; reflexivity.
Qed.

End Administration.

(* ================================================================== *)
(** * Registration *)

Section Registration.
Context `{Crypto}.

(** [createUser] reports the column on which the row it found collides,
    and leaves the database as it was. *)
Lemma createUser_duplicate salt uname mail pw nickname role source db e :
  colliding uname mail db = Some e ->
  UserModel.createUser salt
    (UserData.mk (Js.str uname) (Js.str mail) (Js.str pw) nickname role
                 source) db =
  (Throw (if String.eqb uname (User.username e)
          then DuplicateUsername else DuplicateEmail), db).
Proof.
  intros Hfound.
  unfold UserModel.createUser, UserModel.report_existing. run.
  cbn [UserData.username UserData.email UserData.password where_eq Js.is_str].
  change (List.find _ (user db)) with (colliding uname mail db).
  rewrite Hfound.
  destruct (String.eqb uname (User.username e)) eqn:Hname; [reflexivity|].
  apply List.find_some in Hfound. destruct Hfound as [_ Hhit].
  rewrite String.eqb_sym, Hname in Hhit. cbn [orb] in Hhit.
  rewrite String.eqb_sym, Hhit. reflexivity.
Qed.

Lemma colliding_none_unique self uname mail db :
  colliding uname mail db = None ->
  Prisma.user_unique_ok self uname mail db = true.
Proof.
  unfold colliding, Prisma.user_unique_ok. intros Hnone.
  induction (user db) as [|u l IH]; [reflexivity|].
  cbn in *.
  destruct (String.eqb (User.username u) uname ||
            String.eqb (User.email u) mail); [discriminate|].
  rewrite andb_false_r. cbn. auto.
Qed.

(** On a free username and email [createUser] stores the new row. *)
Lemma createUser_fresh salt uname mail pw nickname source db :
  colliding uname mail db = None ->
  exists row,
    UserModel.createUser salt
      (UserData.mk (Js.str uname) (Js.str mail) (Js.str pw) nickname
                   Js.undefined source) db =
    (Return row,
     mkDb (user db ++ [row])%list (userSession db) (userLoginLog db)
          (userSeq db + 1)) /\
    User.username row = uname /\ User.email row = mail.
Proof.
  intros Hfree. eexists.
  unfold UserModel.createUser, UserModel.report_existing. run.
  cbn [UserData.username UserData.email UserData.password where_eq Js.is_str].
  change (List.find _ (user db)) with (colliding uname mail db).
  rewrite Hfree. unfold Prisma.user_create.
  cbn [User.id User.username User.email].
  rewrite (colliding_none_unique _ _ _ _ Hfree).
  split; [reflexivity|]. split; reflexivity.
Qed.

(** Two registrations with the same username, directly on [createUser]:
    the first stores the row, the second reports the username and changes
    nothing. *)
Lemma createUser_twice_same_username
  salt1 salt2 uname mail1 mail2 pw1 pw2 nickname1 nickname2 source1 source2
  db :
  colliding uname mail1 db = None ->
  colliding uname mail2 db = None ->
  exists row db1,
    UserModel.createUser salt1
      (UserData.mk (Js.str uname) (Js.str mail1) (Js.str pw1) nickname1
                   Js.undefined source1) db = (Return row, db1) /\
    UserModel.createUser salt2
      (UserData.mk (Js.str uname) (Js.str mail2) (Js.str pw2) nickname2
                   Js.undefined source2) db1 = (Throw DuplicateUsername, db1).
Proof.
  intros Hfree1 Hfree2.
  destruct (createUser_fresh salt1 uname mail1 pw1 nickname1 source1 db Hfree1)
    as (row & Hfirst & Hname & _).
  eexists _, _. split; [exact Hfirst|].
  rewrite (createUser_duplicate salt2 uname mail2 pw2 nickname2 Js.undefined
             source2 _ row).
  - now rewrite Hname, String.eqb_refl.
  - unfold colliding in *. cbn [user].
    rewrite (find_app_none _ _ _ Hfree2). cbn [List.find].
    now rewrite Hname, String.eqb_refl.
Qed.

(** C7, at the route.  When the username or the email is already taken,
    [createUser] throws the report that names the colliding column and
    leaves the database unchanged, but the handler of [POST /auth/register]
    sends no response at all: its [catch] block throws a ReferenceError
    before anything is written to the response. *)
Theorem register_duplicate_sends_no_response
  salt uname mail pw nickname source db e :
  uname <> "" -> mail <> "" ->
  (6 <= Js.length pw)%nat ->
  colliding uname mail db = Some e ->
  UserModel.createUser salt
    (UserData.mk (Js.str uname) (Js.str mail) (Js.str pw) nickname
                 Js.undefined source) db =
    (Throw (if String.eqb uname (User.username e)
            then DuplicateUsername else DuplicateEmail), db) /\
  Routes.register salt (Js.str uname) (Js.str mail) (Js.str pw) nickname
                  source db =
    (Throw (Exn.ReferenceError "user"), db).
Proof.
  intros Hu Hm Hlen Hfound.
  pose proof (createUser_duplicate salt uname mail pw nickname Js.undefined
                source db e Hfound) as Hcreate.
  split; [exact Hcreate|].
  assert (pw <> "") as Hp by (intros ->; cbn in Hlen; lia).
  unfold Routes.register.
  unfold try_catch, bind at 1.
  cbn [Js.truthy text].
  rewrite (eqb_false_of_neq _ _ Hu), (eqb_false_of_neq _ _ Hm),
    (eqb_false_of_neq _ _ Hp).
  cbn [negb orb].
  destruct (Nat.ltb_spec (Js.length pw) 6) as [Hlt|_]; [lia|].
  unfold bind. rewrite Hcreate. reflexivity.
Qed.

End Registration.

(* ================================================================== *)
(** * Deleting a user *)

Lemma run_delete_batch fault userId db u :
  by_id userId db = Some u ->
  Prisma.run_batch fault
    [ Prisma.userSession_deleteMany
        (fun s => Z.eqb (UserSession.userId s) userId);
      Prisma.userLoginLog_deleteMany
        (fun l => match UserLoginLog.userId l with
                  | Some i => Z.eqb i userId
                  | None => false
                  end);
      (Prisma.user_delete userId ;; ret tt) ] db =
  match fault with
  | Some 0%nat | Some 1%nat | Some 2%nat => None
  | _ => Some (cascade_deleted userId db)
  end.
Proof.
  unfold by_id. intros Hu.
  destruct fault as [[|[|[|n]]]|]; cbn [Prisma.run_batch option_map Nat.pred];
    unfold Prisma.userSession_deleteMany, Prisma.userLoginLog_deleteMany,
      Prisma.user_delete, bind, ret;
    cbn [user with_userLoginLog with_userSession];
    rewrite ?Hu; reflexivity.
Qed.

(** C8.  [deleteUser] on a stored user either removes every session row and
    every login-audit row of that user together with the user row, or, when
    the store fails inside the transaction, throws and leaves all three
    tables as they were; without a store failure it removes them.  Once
    removed, no session, audit row or user row of that id remains.  On an
    absent id it throws NotFound and leaves the database unchanged. *)
Theorem deleteUser_cascades_atomically fault userId db :
  (by_id userId db = None ->
   UserModel.deleteUser fault userId db = (Throw NotFound, db)) /\
  (forall u, by_id userId db = Some u ->
     (UserModel.deleteUser fault userId db
        = (Return u, cascade_deleted userId db) \/
      exists e, UserModel.deleteUser fault userId db = (Throw e, db)) /\
     (fault = None ->
      UserModel.deleteUser fault userId db
        = (Return u, cascade_deleted userId db))) /\
  (forall s, In s (userSession (cascade_deleted userId db)) ->
             UserSession.userId s <> userId) /\
  (forall l, In l (userLoginLog (cascade_deleted userId db)) ->
             UserLoginLog.userId l <> Some userId) /\
  (forall v, In v (user (cascade_deleted userId db)) -> User.id v <> userId).
Proof.
  split; [|split; [|split; [|split]]].
  - unfold by_id, UserModel.deleteUser. run. intros ->. reflexivity.
  - intros u Hu.
    assert (UserModel.deleteUser fault userId db =
            match fault with
            | Some 0%nat | Some 1%nat | Some 2%nat =>
                (Throw (Exn.PrismaError "Transaction failed"), db)
            | _ => (Return u, cascade_deleted userId db)
            end) as Hrun.
    { unfold UserModel.deleteUser.
      rewrite (bind_returns _ _ db (Some u) db)
        by (unfold by_id in Hu; unfold Prisma.user_findUnique,
              Prisma.user_findFirst; now rewrite Hu).
      cbn beta iota.
      pose proof (run_delete_batch fault userId db u Hu) as Hbatch.
      destruct fault as [[|[|[|n]]]|];
        [ erewrite bind_throws; [reflexivity|] ..
        | erewrite bind_returns; [reflexivity|]
        | erewrite bind_returns; [reflexivity|] ];
        unfold Prisma.transaction; rewrite Hbatch; reflexivity. }
    rewrite Hrun. split.
    + destruct fault as [[|[|[|n]]]|]; eauto.
    + intros ->. reflexivity.
  - intros s Hin. cbn [userSession cascade_deleted] in Hin.
    apply List.filter_In in Hin. destruct Hin as [_ Hkeep].
    apply negb_true_iff, Z.eqb_neq in Hkeep. exact Hkeep.
  - intros l Hin. cbn [userLoginLog cascade_deleted] in Hin.
    apply List.filter_In in Hin. destruct Hin as [_ Hkeep].
    apply negb_true_iff in Hkeep. intros Heq. rewrite Heq in Hkeep.
    now rewrite Z.eqb_refl in Hkeep.
  - intros v Hin. cbn [user cascade_deleted] in Hin.
    apply List.filter_In in Hin. destruct Hin as [_ Hkeep].
    apply negb_true_iff, Z.eqb_neq in Hkeep. exact Hkeep.
Qed.

(* ================================================================== *)
(** * The statements at concrete inputs *)

(** Bob is blocked and holds no session: his token verifies, no session
    row holds it, and [authJWT] answers UserInactive, not SessionRevoked. *)
Lemma revoked_session_of_inactive_user_is_UserInactive :
  jwt_verify (H:=Fixture.crypto) (bearer "Bearer jwt.bob.s3cret")
             (JWT_SECRET Fixture.env) 2000000 = Return Fixture.bob_claims /\
  List.find (fun s => String.eqb (UserSession.token s) "jwt.bob.s3cret" &&
                      Z.ltb 2000000 (UserSession.expiresAt s))
            (userSession Fixture.db) = None /\
  fst (authJWT (H:=Fixture.crypto) Fixture.env 2000000
               (Some "Bearer jwt.bob.s3cret") Fixture.db)
    = Return UserInactive /\
  UserInactive <> SessionRevoked.
Proof. repeat split; try (vm_compute; reflexivity). discriminate. Qed.

Lemma authJWT_user_stage_precedes_session_stage_witness :
  authJWT (H:=Fixture.crypto) Fixture.env 2000000
          (Some "Bearer jwt.bob.s3cret") Fixture.db_live
    = (Return UserInactive, Fixture.db_live) /\
  authJWT (H:=Fixture.crypto) Fixture.env 2000000
          (Some "Bearer jwt.alice.s3cret") Fixture.db
    = (Return SessionRevoked, Fixture.db).
Proof.
  split.
  - apply (authJWT_user_stage_precedes_session_stage
             (H:=Fixture.crypto) Fixture.env 2000000 "Bearer jwt.bob.s3cret"
             Fixture.bob_claims Fixture.db_live);
      [discriminate | vm_compute; discriminate | reflexivity |].
    intros u Hu. vm_compute in Hu. injection Hu as <-. discriminate.
  - apply (authJWT_user_stage_precedes_session_stage
             (H:=Fixture.crypto) Fixture.env 2000000 "Bearer jwt.alice.s3cret"
             Fixture.alice_claims Fixture.db
             ltac:(discriminate) ltac:(vm_compute; discriminate) eq_refl)
      with (u := Fixture.alice); reflexivity.
Defined.



(** A wrong password against the blocked account of Bob: the failure is
    AccountDisabled, not InvalidCredentials. *)
Lemma wrong_password_on_blocked_account_is_AccountDisabled :
  resolve "bob" Fixture.db = Some Fixture.bob /\
  bcrypt_compare (Crypto:=Fixture.crypto) "wrong"
                 (User.passwordHash Fixture.bob) = false /\
  fst (UserModel.login (H:=Fixture.crypto) Fixture.env 2000000 "bob" "wrong"
                       Fixture.info Fixture.db) = Throw AccountDisabled /\
  AccountDisabled <> InvalidCredentials.
Proof. repeat split; try (vm_compute; reflexivity). discriminate. Qed.

Lemma login_checks_status_before_password_witness :
  fst (UserModel.login (H:=Fixture.crypto) Fixture.env 2000000 "alice" "wrong"
                       Fixture.info Fixture.db) = Throw InvalidCredentials /\
  fst (UserModel.login (H:=Fixture.crypto) Fixture.env 2000000 "bob"
                       "hunter22" Fixture.info Fixture.db)
    = Throw AccountDisabled.
Proof.
  split.
  - apply (login_checks_status_before_password
             (H:=Fixture.crypto) Fixture.env 2000000 "alice" "wrong"
             Fixture.info Fixture.db Fixture.alice eq_refl); reflexivity.
  - apply (login_checks_status_before_password
             (H:=Fixture.crypto) Fixture.env 2000000 "bob" "hunter22"
             Fixture.info Fixture.db Fixture.bob eq_refl). discriminate.
Defined.

Lemma login_failures_indistinguishable_witness :
  fst (UserModel.login (H:=Fixture.crypto) Fixture.env 2000000 "alice"
         "wrongpass" (mkLoginInfo (Js.str "10.0.0.1") (Js.str "curl")
                                  Js.undefined) Fixture.db)
    = Throw InvalidCredentials /\
  fst (UserModel.login (H:=Fixture.crypto) Fixture.env 2000500 "nonexistent"
         "x" (mkLoginInfo (Js.str "10.0.0.2") (Js.str "wget") Js.undefined)
         Fixture.db_live)
    = Throw InvalidCredentials /\
  fst (Routes.login (H:=Fixture.crypto) Fixture.env 2000500
         (Js.str "nonexistent") (Js.str "x") (Js.str "10.0.0.2")
         (Js.str "wget") Fixture.db_live)
    = fst (Routes.login (H:=Fixture.crypto) Fixture.env 2000000
             (Js.str "alice") (Js.str "wrongpass") (Js.str "10.0.0.1")
             (Js.str "curl") Fixture.db).
Proof.
  destruct (login_failures_indistinguishable
              (H:=Fixture.crypto) Fixture.env 2000000 2000500 Fixture.db
              Fixture.db_live Fixture.alice "alice" "wrongpass" "nonexistent"
              "x" (Js.str "10.0.0.1") (Js.str "curl") (Js.str "10.0.0.2")
              (Js.str "wget") eq_refl eq_refl eq_refl eq_refl)
    as (Hknown & Hunknown & Hroute).
  split; [exact Hknown|]. split; [exact Hunknown|].
  apply Hroute; discriminate.
Defined.

Lemma session_expiry_reads_days_as_hours_witness :
  exists u s,
    "jwt.alice.s3cret" =
      jws_sign (Crypto:=Fixture.crypto)
               (Jwt.mk (User.id u) (User.username u) (User.role u)
                       (2000000 / 1000) (2000000 / 1000 + 7 * 86400))
               (JWT_SECRET Fixture.env_days) /\
    userSession
      (logged_in 2000000 Fixture.alice "alice" "jwt.alice.s3cret" 7
                 Fixture.info Fixture.db) = (userSession Fixture.db ++ [s])%list /\
    UserSession.token s = "jwt.alice.s3cret" /\
    UserSession.expiresAt s = 2000000 + 7 * 3600000 /\
    UserSession.expiresAt s <> 2000000 + 7 * 86400000.
Proof.
  apply (session_expiry_reads_days_as_hours
           (H:=Fixture.crypto) Fixture.env_days 2000000 "alice" "secret1"
           Fixture.info Fixture.db
           (mkLoginResult (identity_of Fixture.alice) "jwt.alice.s3cret")
           (logged_in 2000000 Fixture.alice "alice" "jwt.alice.s3cret" 7
                      Fixture.info Fixture.db));
    reflexivity.
Defined.

Lemma update_without_status_clears_remark_witness :
  User.status Fixture.bob = "blocked" /\
  User.disabledRemark Fixture.bob = Some "spam" /\
  exists row,
    Routes.update (H:=Fixture.crypto) "salt" Fixture.root "2"
                  (profile_only (Js.str "Bobby") Js.undefined) Fixture.db =
      (Return (Http.mk 200 (Http.user_json row)),
       with_user (Prisma.replace_user 2 row) Fixture.db) /\
    User.status row = User.status Fixture.bob /\
    User.disabledRemark row = None.
Proof.
  split; [reflexivity|]. split; [reflexivity|].
  apply (update_without_status_clears_remark
           (H:=Fixture.crypto) "salt" Fixture.root "2" 2 (Js.str "Bobby")
           Js.undefined Fixture.db Fixture.bob "spam");
    try reflexivity; try discriminate.
  left. discriminate.
Defined.

Lemma register_duplicate_sends_no_response_witness :
  UserModel.createUser (H:=Fixture.crypto) "salt"
    (UserData.mk (Js.str "alice") (Js.str "carol@x.com") (Js.str "secret3")
                 Js.undefined Js.undefined Js.undefined) Fixture.db =
    (Throw DuplicateUsername, Fixture.db) /\
  Routes.register (H:=Fixture.crypto) "salt" (Js.str "alice")
    (Js.str "carol@x.com") (Js.str "secret3") Js.undefined Js.undefined
    Fixture.db =
    (Throw (Exn.ReferenceError "user"), Fixture.db).
Proof.
  apply (register_duplicate_sends_no_response
           (H:=Fixture.crypto) "salt" "alice" "carol@x.com" "secret3"
           Js.undefined Js.undefined Fixture.db Fixture.alice);
    try discriminate; try reflexivity.
  vm_compute. lia.
Defined.

Lemma deleteUser_cascades_atomically_witness :
  UserModel.deleteUser None 2 Fixture.db_live =
    (Return Fixture.bob,
     mkDb [Fixture.alice] [Fixture.alice_session] [Fixture.anonymous_log] 3) /\
  (exists e, UserModel.deleteUser (Some 2%nat) 2 Fixture.db_live
             = (Throw e, Fixture.db_live)) /\
  UserModel.deleteUser None 7 Fixture.db_live = (Throw NotFound, Fixture.db_live).
Proof.
  split; [|split].
  - apply (proj2 (proj1 (proj2 (deleteUser_cascades_atomically
                                  None 2 Fixture.db_live))
                        Fixture.bob eq_refl) eq_refl).
  - destruct (proj1 (proj1 (proj2 (deleteUser_cascades_atomically
                                     (Some 2%nat) 2 Fixture.db_live))
                           Fixture.bob eq_refl)) as [Hok | Hfail].
    + vm_compute in Hok. discriminate Hok.
    + exact Hfail.
  - apply (proj1 (deleteUser_cascades_atomically None 7 Fixture.db_live)).
    reflexivity.
Defined.


(** C9 as stated fails for an attempt with a wrong password that is
    empty: Alice is stored, the empty password does not match her hash,
    and the attempt is answered 400 with code 400, not 200 with 401. *)
Lemma empty_password_attempt_is_answered_400 :
  resolve "alice" Fixture.db = Some Fixture.alice /\
  bcrypt_compare (Crypto:=Fixture.crypto) ""
                 (User.passwordHash Fixture.alice) = false /\
  Routes.login (H:=Fixture.crypto) Fixture.env 2000000 (Js.str "alice")
               (Js.str "") (Js.str "10.0.0.1") (Js.str "curl") Fixture.db
    = (Return (Http.mk 400 (Http.envelope 400 "用户名和密码为必填项")),
       Fixture.db) /\
  ~ (exists message,
        fst (Routes.login (H:=Fixture.crypto) Fixture.env 2000000
                          (Js.str "alice") (Js.str "") (Js.str "10.0.0.1")
                          (Js.str "curl") Fixture.db)
          = Return (Http.mk 200 (Http.envelope 401 message))).
Proof.
  split; [reflexivity|]. split; [reflexivity|]. split; [reflexivity|].
  intros [message Hanswer]. vm_compute in Hanswer. discriminate.
Qed.

Lemma login_failures_are_200_with_code_401_or_400_witness :
  (exists message,
      fst (Routes.login (H:=Fixture.crypto) Fixture.env 2000000
                        (Js.str "bob") (Js.str "hunter22")
                        (Js.str "10.0.0.1") (Js.str "curl") Fixture.db)
        = Return (Http.mk 200 (Http.envelope 401 message)) /\
      (message = Exn.message InvalidCredentials \/
       message = Exn.message AccountDisabled)) /\
  Routes.login (H:=Fixture.crypto) Fixture.env 2000000 (Js.str "mallory")
               (Js.str "guess1") (Js.str "10.0.0.1") (Js.str "curl")
               Fixture.db
    = (Return (Http.mk 200 (Http.envelope 401 "用户名或密码错误")),
       logged (failed_attempt None "mallory" Fixture.info "用户不存在")
              Fixture.db) /\
  Routes.login (H:=Fixture.crypto) Fixture.env 2000000 Js.undefined
               (Js.str "secret1") (Js.str "10.0.0.1") (Js.str "curl")
               Fixture.db
    = (Return (Http.mk 400 (Http.envelope 400 "用户名和密码为必填项")),
       Fixture.db).
Proof.
  pose proof (login_failures_are_200_with_code_401_or_400
                (H:=Fixture.crypto) Fixture.env 2000000 (Js.str "10.0.0.1")
                (Js.str "curl") Fixture.db) as [Hgiven Hmissing].
  split; [|split].
  - apply (proj1 (Hgiven "bob" "hunter22" ltac:(discriminate)
                         ltac:(discriminate))).
    right. exists Fixture.bob. split; [reflexivity|]. left. discriminate.
  - refine (proj2 (Hgiven "mallory" "guess1" ltac:(discriminate)
                          ltac:(discriminate))
                  InvalidCredentials
                  (logged (failed_attempt None "mallory" Fixture.info
                                          "用户不存在") Fixture.db) _).
    reflexivity.
  - apply Hmissing. left. reflexivity.
Defined.



Lemma change_password_route_is_shadowed_witness :
  bcrypt_compare (Crypto:=Fixture.crypto) "secret1"
                 (User.passwordHash Fixture.alice) = true /\
  UserRouter.put (H:=Fixture.crypto) Fixture.env 2000000 "salt"
    "change-password" (Some "Bearer jwt.alice.s3cret")
    (mkPutBody UpdateData.empty (Js.str "secret1") (Js.str "newsecret"))
    (Js.str "10.0.0.1") (Js.str "curl") Fixture.db_live
    = (Return (Some (Http.mk 403 (Http.message_only "权限不足"))),
       Fixture.db_live).
Proof.
  split; [reflexivity|].
  destruct (change_password_route_is_shadowed
              (H:=Fixture.crypto) Fixture.env 2000000 "salt"
              (Some "Bearer jwt.alice.s3cret")
              (mkPutBody UpdateData.empty (Js.str "secret1")
                         (Js.str "newsecret"))
              (Js.str "10.0.0.1") (Js.str "curl") Fixture.db_live)
    as (response & Hput & Hcase).
  vm_compute in Hcase. rewrite Hput, Hcase. reflexivity.
Defined.

(* ================================================================== *)
(** * Validation and revocation *)

Lemma substring_whole (s : string) :
  String.substring 0 (String.length s) s = s.
Proof. induction s as [|c s IH]; cbn; [reflexivity | now rewrite IH]. Qed.

Lemma bearer_of_prefixed (tok : string) : bearer ("Bearer " ++ tok) = tok.
Proof.
  unfold bearer. cbn. rewrite Nat.sub_0_r.
  destruct tok as [|c tok]; cbn; [reflexivity|].
  now rewrite substring_whole.
Qed.

Lemma find_filter_same {A} (p q : A -> bool) (l : list A) :
  (forall x, p x = true -> q x = true) ->
  List.find p (List.filter q l) = List.find p l.
Proof.
  intros Hpq. induction l as [|a l IH]; [reflexivity|].
  cbn. destruct (q a) eqn:Hq; cbn.
  - now rewrite IH.
  - destruct (p a) eqn:Hp; [|exact IH].
    apply Hpq in Hp. congruence.
Qed.

Lemma find_filter_none {A} (p q : A -> bool) (l : list A) :
  (forall x, p x = true -> q x = false) ->
  List.find p (List.filter q l) = None.
Proof.
  intros Hpq. induction l as [|a l IH]; [reflexivity|].
  cbn. destruct (q a) eqn:Hq; cbn; [|exact IH].
  destruct (p a) eqn:Hp; [|exact IH].
  apply Hpq in Hp. congruence.
Qed.

Section Revocation.
Context `{Crypto} (env : Env).

(** X1.  [authJWT] only reads: whatever the header and whatever its
    verdict, the database is left exactly as it was. *)
Theorem authJWT_reads_only now authHeader db :
  snd (authJWT env now authHeader db) = db.
Proof.
  unfold authJWT. run.
  destruct authHeader as [h|]; [|reflexivity].
  destruct (String.eqb h ""); [reflexivity|].
  destruct (String.eqb (Str.remove_first "Bearer " h) ""); [reflexivity|].
  destruct (jwt_verify _ _ now) as [claims|e].
  - destruct (List.find _ (user db)) as [u|]; [|reflexivity].
    destruct (negb (String.eqb (User.status u) "active")); [reflexivity|].
    destruct (List.find _ (userSession db)); reflexivity.
  - destruct (String.eqb (Exn.name e) "JsonWebTokenError"); [reflexivity|].
    destruct (String.eqb (Exn.name e) "TokenExpiredError"); reflexivity.
Qed.

(** The verdict of [authJWT] depends on the database only through the
    owner of the token and through whether that owner has a live session
    row with the token. *)
Lemma authJWT_same_verdict now authHeader db1 db2 :
  (forall h claims,
      authHeader = Some h ->
      jwt_verify (bearer h) (JWT_SECRET env) now = Return claims ->
      owner claims db1 = owner claims db2 /\
      forall u, owner claims db1 = Some u ->
                (live_session now u (bearer h) db1 = None <->
                 live_session now u (bearer h) db2 = None)) ->
  fst (authJWT env now authHeader db1) = fst (authJWT env now authHeader db2).
Proof.
  intros Hsame. unfold authJWT. run.
  destruct authHeader as [h|]; [|reflexivity].
  destruct (String.eqb h ""); [reflexivity|].
  fold (bearer h).
  destruct (String.eqb (bearer h) ""); [reflexivity|].
  destruct (jwt_verify (bearer h) (JWT_SECRET env) now) as [claims|e] eqn:Hver.
  - destruct (Hsame h claims eq_refl Hver) as [Hown Hlive].
    unfold owner, by_id in Hown. rewrite <- Hown.
    destruct (List.find _ (user db1)) as [u|] eqn:Hu; [|reflexivity].
    destruct (negb (String.eqb (User.status u) "active")); [reflexivity|].
    specialize (Hlive u). unfold owner, by_id in Hlive.
    specialize (Hlive Hu). unfold live_session in Hlive.
    destruct (List.find _ (userSession db1)) as [s1|];
      destruct (List.find _ (userSession db2)) as [s2|];
      try reflexivity.
    + destruct Hlive as [_ Hback]. discriminate (Hback eq_refl).
    + destruct Hlive as [Hforth _]. discriminate (Hforth eq_refl).
  - destruct (String.eqb (Exn.name e) "JsonWebTokenError"); [reflexivity|].
    destruct (String.eqb (Exn.name e) "TokenExpiredError"); reflexivity.
Qed.

(** X2.  The first stage cannot be talked round by the database: a token
    whose signature does not verify is answered InvalidToken, and a token
    whose encoded expiry is the current second or earlier is answered
    ExpiredToken, whatever users and session rows are stored. *)
Theorem authJWT_rejects_unverified_token now h db :
  h <> "" ->
  bearer h <> "" ->
  (jws_verify (bearer h) (JWT_SECRET env) = None ->
   authJWT env now (Some h) db = (Return InvalidToken, db)) /\
  (forall claims,
      jws_verify (bearer h) (JWT_SECRET env) = Some claims ->
      Jwt.exp claims <= now / 1000 ->
      authJWT env now (Some h) db = (Return ExpiredToken, db)).
Proof.
  intros Hh Htok.
  assert (forall e, jwt_verify (bearer h) (JWT_SECRET env) now = Throw e ->
                    authJWT env now (Some h) db =
                    (Return
                       (if String.eqb (Exn.name e) "JsonWebTokenError"
                        then InvalidToken
                        else if String.eqb (Exn.name e) "TokenExpiredError"
                        then ExpiredToken
                        else Rejected (Http.mk 500
                               (Http.message_only "服务器内部错误"))), db))
    as Hthrow.
  { intros e He. unfold authJWT, bearer in *. run.
    rewrite (eqb_false_of_neq _ _ Hh), (eqb_false_of_neq _ _ Htok), He.
    destruct (String.eqb (Exn.name e) "JsonWebTokenError"); [reflexivity|].
    destruct (String.eqb (Exn.name e) "TokenExpiredError"); reflexivity. }
  split.
  - intros Hnone. rewrite (Hthrow (Exn.JsonWebTokenError "invalid token")).
    + reflexivity.
    + unfold jwt_verify. now rewrite Hnone.
  - intros claims Hsome Hexp. rewrite (Hthrow Exn.TokenExpiredError).
    + reflexivity.
    + unfold jwt_verify. rewrite Hsome.
      now rewrite (proj2 (Z.leb_le _ _) Hexp).
Qed.

(** X3.  The [Bearer] prefix is optional: a header that is the bare token
    gets the verdict of the same token behind the prefix. *)
Theorem authJWT_bare_token_header now tok db :
  tok <> "" ->
  bearer tok = tok ->
  authJWT env now (Some tok) db
    = authJWT env now (Some ("Bearer " ++ tok)) db.
Proof.
  intros Hne Hbare. unfold authJWT. run.
  fold (bearer tok). fold (bearer ("Bearer " ++ tok)).
  rewrite bearer_of_prefixed, Hbare.
  rewrite (eqb_false_of_neq _ _ Hne). reflexivity.
Qed.

(** No session row of a user, no way in: when no stored session row
    belongs to the user a token's claims name, [authJWT] does not let the
    token through. *)
Lemma authJWT_without_session now authHeader db :
  (forall h claims,
      authHeader = Some h ->
      jwt_verify (bearer h) (JWT_SECRET env) now = Return claims ->
      forall s, In s (userSession db) ->
                UserSession.userId s <> Jwt.userId claims) ->
  forall u tok,
    fst (authJWT env now authHeader db) <> Return (Authenticated u tok).
Proof.
  intros Hnone u tok Hin.
  destruct (authJWT env now authHeader db) as [o db'] eqn:Hrun.
  cbn [fst] in Hin. subst o.
  assert (exists h, authHeader = Some h /\ bearer h = tok) as (h & -> & Hh).
  { revert Hrun. unfold authJWT. run.
    destruct authHeader as [h|]; [|discriminate].
    destruct (String.eqb h ""); [discriminate|].
    fold (bearer h). destruct (String.eqb (bearer h) ""); [discriminate|].
    destruct (jwt_verify _ _ now) as [claims|e].
    - destruct (List.find _ (user db)) as [row|]; [|discriminate].
      destruct (negb (String.eqb (User.status row) "active"));
        [discriminate|].
      destruct (List.find _ (userSession db)); [|discriminate].
      intros Heq. injection Heq as _ Htok _. now exists h.
    - destruct (String.eqb (Exn.name e) "JsonWebTokenError"); [discriminate|].
      destruct (String.eqb (Exn.name e) "TokenExpiredError"); discriminate. }
  destruct (authJWT_authenticated_inv env _ _ _ _ _ _ Hrun)
    as (claims & row & s & Hver & Hrow & _ & _ & Hs & _).
  subst tok.
  unfold live_session in Hs. apply List.find_some in Hs.
  destruct Hs as [Hs_in Hs].
  apply andb_prop in Hs. destruct Hs as [Hs _].
  apply andb_prop in Hs. destruct Hs as [Huid _].
  apply Z.eqb_eq in Huid.
  unfold owner, by_id in Hrow. apply List.find_some in Hrow.
  destruct Hrow as [_ Hid]. apply Z.eqb_eq in Hid.
  apply (Hnone h claims eq_refl Hver s Hs_in). congruence.
Qed.

(** What [logout] does to the session table. *)
Lemma logout_result userId t db :
  UserModel.logout userId t db =
  (Return tt,
   with_userSession (List.filter (fun s => negb (revoked userId t s))) db).
Proof.
  unfold UserModel.logout, revoked, Prisma.userSession_deleteMany.
  destruct t as [| |tok]; try reflexivity.
  destruct (String.eqb tok ""); reflexivity.
Qed.

(** X4.  Logout takes effect at the next validation: after the presented
    token is logged out, or after all sessions of its user are, the token
    of an active user is answered SessionRevoked although its signature
    still verifies. *)
Theorem logout_revokes_token now h db u claims t :
  h <> "" ->
  bearer h <> "" ->
  jwt_verify (bearer h) (JWT_SECRET env) now = Return claims ->
  owner claims db = Some u ->
  User.status u = "active" ->
  t = Js.str (bearer h) \/ Js.truthy t = false ->
  authJWT env now (Some h) (snd (UserModel.logout (User.id u) t db)) =
  (Return SessionRevoked, snd (UserModel.logout (User.id u) t db)).
Proof.
  intros Hh Htok Hver Hown Hact Ht.
  rewrite (authJWT_verified env now h claims _ Hh Htok Hver).
  rewrite logout_result. cbn [snd].
  unfold owner, by_id in *. cbn [user with_userSession].
  rewrite Hown, Hact. cbn [negb String.eqb].
  replace (negb (String.eqb "active" "active")) with false by reflexivity.
  unfold live_session. cbn [userSession with_userSession].
  rewrite find_filter_none; [reflexivity|].
  intros s Hs. apply andb_prop in Hs. destruct Hs as [Hs _].
  apply andb_prop in Hs. destruct Hs as [Huid Hsame].
  apply negb_false_iff. unfold revoked.
  destruct Ht as [-> | Hall].
  - rewrite (eqb_false_of_neq _ _ Htok), Huid, Hsame. reflexivity.
  - destruct t as [| |tok]; try exact Huid.
    cbn in Hall. apply negb_false_iff in Hall. now rewrite Hall.
Qed.

(** X5.  Logout reaches no further than its target: the verdict on a
    token of another user, and after the logout of a single token the
    verdict on any other token, is what it was before. *)
Theorem logout_leaves_others_alone now authHeader db userId t :
  (forall h claims,
      authHeader = Some h ->
      jwt_verify (bearer h) (JWT_SECRET env) now = Return claims ->
      Jwt.userId claims <> userId \/
      exists tok, t = Js.str tok /\ tok <> "" /\ bearer h <> tok) ->
  fst (authJWT env now authHeader (snd (UserModel.logout userId t db)))
    = fst (authJWT env now authHeader db).
Proof.
  intros Hother. apply authJWT_same_verdict.
  intros h claims Hh Hver. rewrite logout_result. cbn [snd].
  split; [reflexivity|].
  intros u Hu. unfold live_session. cbn [userSession with_userSession].
  rewrite find_filter_same; [reflexivity|].
  intros s Hs. apply andb_prop in Hs. destruct Hs as [Hs _].
  apply andb_prop in Hs. destruct Hs as [Huid Hsame].
  apply Z.eqb_eq in Huid. apply String.eqb_eq in Hsame.
  unfold owner, by_id in Hu. cbn [user with_userSession] in Hu.
  apply List.find_some in Hu. destruct Hu as [_ Hid]. apply Z.eqb_eq in Hid.
  apply negb_true_iff. unfold revoked.
  destruct (Hother h claims Hh Hver) as [Hne | (tok & -> & Hne & Hdiff)].
  - assert (Z.eqb (UserSession.userId s) userId = false) as Hno
        by (apply Z.eqb_neq; congruence).
    destruct t as [| |tok]; try exact Hno.
    destruct (String.eqb tok ""); [exact Hno | now rewrite Hno].
  - rewrite (eqb_false_of_neq _ _ Hne).
    assert (String.eqb (UserSession.token s) tok = false) as Hno
        by (apply String.eqb_neq; congruence).
    rewrite Hno. apply andb_false_r.
Qed.

(** X6.  Logout is idempotent on the session table: once a logout has
    gone through, a second logout with the same arguments finds nothing
    left to delete and leaves every table as it is. *)
Theorem logout_is_idempotent userId t db :
  snd (UserModel.logout userId t (snd (UserModel.logout userId t db)))
    = snd (UserModel.logout userId t db).
Proof.
  rewrite !logout_result. cbn [fst snd].
  unfold with_userSession. cbn [user userSession userLoginLog userSeq].
  f_equal.
  induction (userSession db) as [|s l IH]; [reflexivity|].
  cbn. destruct (negb (revoked userId t s)) eqn:Hs; [|exact IH].
  cbn. rewrite Hs. now rewrite IH.
Qed.

(** Where a returned [deleteUser] leaves the database. *)
Lemma deleteUser_returned fault userId db u db' :
  UserModel.deleteUser fault userId db = (Return u, db') ->
  db' = cascade_deleted userId db.
Proof.
  intros Hrun.
  destruct (by_id userId db) as [row|] eqn:Hrow.
  - assert (UserModel.deleteUser fault userId db =
            match fault with
            | Some 0%nat | Some 1%nat | Some 2%nat =>
                (Throw (Exn.PrismaError "Transaction failed"), db)
            | _ => (Return row, cascade_deleted userId db)
            end) as Hcase.
    { unfold UserModel.deleteUser.
      rewrite (bind_returns _ _ db (Some row) db)
        by (unfold by_id in Hrow; unfold Prisma.user_findUnique,
              Prisma.user_findFirst; now rewrite Hrow).
      cbn beta iota.
      pose proof (run_delete_batch fault userId db row Hrow) as Hbatch.
      destruct fault as [[|[|[|n]]]|];
        [ erewrite bind_throws; [reflexivity|] ..
        | erewrite bind_returns; [reflexivity|]
        | erewrite bind_returns; [reflexivity|] ];
        unfold Prisma.transaction; rewrite Hbatch; reflexivity. }
    rewrite Hcase in Hrun.
    destruct fault as [[|[|[|n]]]|]; try discriminate;
      now injection Hrun as _ <-.
  - unfold UserModel.deleteUser in Hrun.
    rewrite (bind_returns _ _ db None db) in Hrun
      by (unfold by_id in Hrow; unfold Prisma.user_findUnique,
            Prisma.user_findFirst; now rewrite Hrow).
    discriminate.
Qed.

(** X7.  A deleted user's tokens are dead and nobody else's are touched:
    once [deleteUser] has returned, no token whose claims name the deleted
    user is let through, and every token of another user gets the verdict
    it got before. *)
Theorem deleted_user_is_locked_out now authHeader fault userId db u db' :
  UserModel.deleteUser fault userId db = (Return u, db') ->
  ((forall h claims,
       authHeader = Some h ->
       jwt_verify (bearer h) (JWT_SECRET env) now = Return claims ->
       Jwt.userId claims = userId) ->
   forall v tok,
     fst (authJWT env now authHeader db') <> Return (Authenticated v tok)) /\
  ((forall h claims,
       authHeader = Some h ->
       jwt_verify (bearer h) (JWT_SECRET env) now = Return claims ->
       Jwt.userId claims <> userId) ->
   fst (authJWT env now authHeader db') = fst (authJWT env now authHeader db)).
Proof.
  intros Hrun. apply deleteUser_returned in Hrun. subst db'.
  split.
  - intros Hmine. apply authJWT_without_session.
    intros h claims Hh Hver s Hin.
    rewrite (Hmine h claims Hh Hver).
    cbn [userSession cascade_deleted] in Hin.
    apply List.filter_In in Hin. destruct Hin as [_ Hkeep].
    now apply negb_true_iff, Z.eqb_neq in Hkeep.
  - intros Hother. apply authJWT_same_verdict.
    intros h claims Hh Hver. specialize (Hother h claims Hh Hver).
    assert (forall v, Z.eqb (User.id v) (Jwt.userId claims) = true ->
                      negb (Z.eqb (User.id v) userId) = true) as Hkeep.
    { intros v Hv. apply Z.eqb_eq in Hv. apply negb_true_iff, Z.eqb_neq.
      congruence. }
    split.
    + unfold owner, by_id. cbn [user cascade_deleted].
      now rewrite find_filter_same.
    + intros w Hw. unfold live_session. cbn [userSession cascade_deleted].
      rewrite find_filter_same; [reflexivity|].
      intros s Hs. apply andb_prop in Hs. destruct Hs as [Hs _].
      apply andb_prop in Hs. destruct Hs as [Huid _].
      apply Z.eqb_eq in Huid.
      unfold owner, by_id in Hw. cbn [user cascade_deleted] in Hw.
      apply List.find_some in Hw. destruct Hw as [_ Hid].
      apply Z.eqb_eq in Hid.
      apply negb_true_iff, Z.eqb_neq. congruence.
Qed.

End Revocation.

(* ================================================================== *)
(** * Logging in *)


Lemma map_replace_user {B} (g : User.t -> B) i r l row :
  List.find (fun u => Z.eqb (User.id u) i) l = Some row ->
  g r = g row ->
  List.map g (Prisma.replace_user i r l) = List.map g l.
Proof.
  intros Hfind Hg. induction l as [|u l IH]; [discriminate|].
  cbn in *. destruct (Z.eqb (User.id u) i).
  - injection Hfind as <-. cbn. now rewrite Hg.
  - cbn. now rewrite IH.
Qed.

Section LoggingIn.
Context `{Crypto} (env : Env).


(** X9.  A login that fails with InvalidCredentials or AccountDisabled
    writes nothing but its audit row: every user row and every session
    row is as it was, no user is created, and what is appended to the
    login log is at most one row, marked unsuccessful and carrying the
    attempted name. *)
Theorem failed_login_writes_only_the_audit_row
  now username password info db e db' :
  UserModel.login env now username password info db = (Throw e, db') ->
  e = InvalidCredentials \/ e = AccountDisabled ->
  user db' = user db /\
  userSession db' = userSession db /\
  userSeq db' = userSeq db /\
  exists rows,
    userLoginLog db' = (userLoginLog db ++ rows)%list /\
    (List.length rows <= 1)%nat /\
    List.Forall (fun row => UserLoginLog.success row = false /\
                            UserLoginLog.username row = username) rows.
Proof.
  unfold UserModel.login, UserModel.saveLoginLog, jwt_sign. run.
  intros Hrun He.
  assert (forall row,
             UserLoginLog.success row = false ->
             UserLoginLog.username row = username ->
             exists rows,
               (userLoginLog db ++ [row])%list
                 = (userLoginLog db ++ rows)%list /\
               (List.length rows <= 1)%nat /\
               List.Forall (fun row => UserLoginLog.success row = false /\
                                       UserLoginLog.username row = username)
                           rows) as Hone.
  { intros row Hfalse Hname. exists [row]. split; [reflexivity|].
    split; [cbn; lia|]. constructor; [now split | constructor]. }
  destruct (List.find _ (user db)) as [u|].
  - destruct (negb (String.eqb (User.status u) "active")).
    { injection Hrun as _ <-. repeat split. now apply Hone. }
    destruct (negb (bcrypt_compare password (User.passwordHash u))).
    { injection Hrun as _ <-. repeat split. now apply Hone. }
    exfalso.
    destruct (Ms.timespan (JWT_EXPIRES_IN env) (now / 1000)) as [exp|];
      [|injection Hrun as <- _; destruct He; discriminate].
    destruct (Str.match_digits (JWT_EXPIRES_IN env)) as [h|];
      [|injection Hrun as <- _; destruct He; discriminate].
    destruct (Str.parseInt h) as [n|];
      [|injection Hrun as <- _; destruct He; discriminate].
    unfold Prisma.userSession_create, Prisma.user_update,
      Prisma.userLoginLog_create in Hrun.
    destruct (Prisma.token_unique_ok _ db);
      [|injection Hrun as <- _; destruct He; discriminate].
    cbn [user with_userSession] in Hrun.
    destruct (List.find _ (user db)) as [row|];
      [|injection Hrun as <- _; destruct He; discriminate].
    destruct (Prisma.user_unique_ok _ _ _ _);
      [discriminate | injection Hrun as <- _; destruct He; discriminate].
  - injection Hrun as _ <-. repeat split. now apply Hone.
Qed.

(** X10.  A successful login changes nothing in the user table but one
    last-login stamp: every username, email, password hash, role, status
    and remark is what it was. *)
Theorem login_alters_only_last_login now username password info db r db' :
  UserModel.login env now username password info db = (Return r, db') ->
  List.map forget_last_login (user db')
    = List.map forget_last_login (user db) /\
  userSeq db' = userSeq db.
Proof.
  unfold UserModel.login, UserModel.saveLoginLog, jwt_sign. run.
  intros Hrun.
  destruct (List.find _ (user db)) as [u|]; [|discriminate].
  destruct (negb (String.eqb (User.status u) "active")); [discriminate|].
  destruct (negb (bcrypt_compare password (User.passwordHash u)));
    [discriminate|].
  destruct (Ms.timespan (JWT_EXPIRES_IN env) (now / 1000)) as [exp|];
    [|discriminate].
  destruct (Str.match_digits (JWT_EXPIRES_IN env)) as [h|]; [|discriminate].
  destruct (Str.parseInt h) as [n|]; [|discriminate].
  unfold Prisma.userSession_create, Prisma.user_update,
    Prisma.userLoginLog_create in Hrun.
  destruct (Prisma.token_unique_ok _ db); [|discriminate].
  cbn [user with_userSession] in Hrun.
  destruct (List.find _ (user db)) as [row|] eqn:Hrow; [|discriminate].
  destruct (Prisma.user_unique_ok _ _ _ _); [|discriminate].
  injection Hrun as _ <-.
  cbn [user userSeq with_user with_userSession with_userLoginLog].
  split; [|reflexivity].
  now apply (map_replace_user forget_last_login _ _ _ row).
Qed.




End LoggingIn.

(* ================================================================== *)
(** * Creating accounts *)

Lemma NoDup_map_snoc {A B} (f : A -> B) (l : list A) (x : A) :
  List.NoDup (List.map f l) ->
  (forall y, In y l -> f y <> f x) ->
  List.NoDup (List.map f (l ++ [x])).
Proof.
  intros Hnd Hnew. induction l as [|a l IH]; cbn.
  - constructor; [intros [] | constructor].
  - inversion Hnd as [|? ? Hnotin Hrest]; subst. constructor.
    + rewrite List.map_app, List.in_app_iff. cbn. intros [Hin | [Heq | []]].
      * contradiction.
      * apply (Hnew a); [now left | now symmetry].
    + apply IH; [assumption|]. intros y Hy. apply Hnew. now right.
Qed.

Lemma colliding_none_fresh uname mail db :
  colliding uname mail db = None ->
  forall y, In y (user db) ->
            User.username y <> uname /\ User.email y <> mail.
Proof.
  unfold colliding. intros Hnone y Hy.
  pose proof (List.find_none _ _ Hnone y Hy) as Hno. cbn beta in Hno.
  apply orb_false_elim in Hno. destruct Hno as [Hu Hm].
  split; now apply String.eqb_neq.
Qed.

Section Accounts.
Context `{Crypto} (env : Env).



(** X13.  [createUser] keeps usernames and emails pairwise distinct:
    whatever it is given and whether it returns or throws, a table without
    duplicate usernames or emails stays one. *)
Theorem createUser_keeps_names_unique salt userData db o db' :
  names_unique db ->
  UserModel.createUser salt userData db = (o, db') ->
  names_unique db'.
Proof.
  intros [Hnames Hmails].
  unfold UserModel.createUser, UserModel.report_existing. run.
  destruct userData as [uname mail pw nickname role source].
  cbn [UserData.username UserData.email UserData.password UserData.nickname
       UserData.role UserData.source].
  destruct (List.find _ (user db)) as [e|] eqn:Hfound.
  - destruct (Js.is_str uname (User.username e)) eqn:Hn.
    { intros Heq. injection Heq as _ <-. now split. }
    destruct (Js.is_str mail (User.email e)) eqn:Hm.
    { intros Heq. injection Heq as _ <-. now split. }
    destruct uname as [| |u]; destruct mail as [| |m];
      destruct pw as [| |p];
      try (intros Heq; injection Heq as _ <-; now split).
    exfalso. apply List.find_some in Hfound. destruct Hfound as [_ Hhit].
    cbn [where_eq Js.is_str] in *.
    rewrite String.eqb_sym, Hn in Hhit.
    rewrite String.eqb_sym, Hm in Hhit. discriminate.
  - destruct uname as [| |u]; destruct mail as [| |m];
      destruct pw as [| |p];
      try (intros Heq; injection Heq as _ <-; now split).
    cbn [where_eq] in Hfound.
    change (List.find _ (user db)) with (colliding u m db) in Hfound.
    unfold Prisma.user_create. cbn [User.id User.username User.email].
    rewrite (colliding_none_unique _ _ _ _ Hfound).
    intros Heq. injection Heq as _ <-.
    pose proof (colliding_none_fresh u m db Hfound) as Hfresh.
    split; cbn [user]; apply NoDup_map_snoc; try assumption;
      intros y Hy; cbn; now apply Hfresh.
Qed.

(** X14.  [POST /users] answers every request with transport status 200:
    a created user comes back as the row, and every refusal, whether a
    missing field, a short password or a duplicate, is an envelope with
    code 400. *)
Theorem create_user_always_answers_200
  salt username email password nickname role status disabledRemark db :
  exists body db',
    Handlers.create_user salt username email password nickname role status
                         disabledRemark db =
      (Return (Http.mk 200 body), db') /\
    ((exists row, body = Http.user_json row /\ In row (user db')) \/
     (exists message, body = Http.envelope 400 message)).
Proof.
  unfold Handlers.create_user, try_catch. unfold bind at 1.
  destruct (negb (Js.truthy username) || negb (Js.truthy email) ||
            negb (Js.truthy password)).
  { eexists _, _. split; [reflexivity|]. right. now eexists. }
  destruct (Js.length (text password) <? 6)%nat.
  { eexists _, _. split; [reflexivity|]. right. now eexists. }
  destruct (Admin.adminCreateUser salt _ db) as [[row|e] db1] eqn:Hcreate.
  - eexists _, _. split; [reflexivity|]. left. exists row.
    split; [reflexivity|].
    revert Hcreate.
    unfold Admin.adminCreateUser, UserModel.report_existing. run.
    cbn [AdminUserData.username AdminUserData.email AdminUserData.password].
    destruct (List.find _ (user db)) as [e|];
      [destruct (Js.is_str username (User.username e)); [discriminate|];
       destruct (Js.is_str email (User.email e)); [discriminate|] |];
      destruct username as [| |u]; try discriminate;
      destruct email as [| |m]; try discriminate;
      destruct password as [| |p]; try discriminate;
      unfold Prisma.user_create;
      destruct (Prisma.user_unique_ok _ _ _ db); try discriminate;
      intros Heq; injection Heq as <- <-; cbn [user];
      apply List.in_or_app; right; now left.
  - eexists _, _. split; [reflexivity|]. right. now eexists.
Qed.

(** X15.  [POST /users] does not ask for a remark: for a non-empty
    username and email that no stored user holds and a password of six
    UTF-16 units or more, a request with status ['blocked'] and no
    disabled remark stores a blocked user without a remark. *)
Theorem create_user_accepts_blocked_without_remark
  salt uname mail pw nickname role db :
  uname <> "" -> mail <> "" ->
  (6 <= Js.length pw)%nat ->
  colliding uname mail db = None ->
  exists row db',
    Handlers.create_user salt (Js.str uname) (Js.str mail) (Js.str pw)
                         nickname role (Js.str "blocked") Js.undefined db =
      (Return (Http.mk 200 (Http.user_json row)), db') /\
    In row (user db') /\
    User.username row = uname /\
    User.status row = "blocked" /\
    User.disabledRemark row = None.
Proof.
  intros Hu Hm Hlen Hfree.
  assert (pw <> "") as Hp by (intros ->; cbn in Hlen; lia).
  eexists _, _.
  unfold Handlers.create_user, try_catch. unfold bind at 1.
  cbn [Js.truthy text].
  rewrite (eqb_false_of_neq _ _ Hu), (eqb_false_of_neq _ _ Hm),
    (eqb_false_of_neq _ _ Hp).
  cbn [negb orb].
  destruct (Nat.ltb_spec (Js.length pw) 6) as [Hlt|_]; [lia|].
  unfold Admin.adminCreateUser, UserModel.report_existing. run.
  cbn [AdminUserData.username AdminUserData.email AdminUserData.password
       where_eq Js.is_str].
  change (List.find _ (user db)) with (colliding uname mail db).
  rewrite Hfree. unfold Prisma.user_create.
  cbn [User.id User.username User.email].
  rewrite (colliding_none_unique _ _ _ _ Hfree).
  split; [reflexivity|]. cbn [user].
  split; [apply List.in_or_app; right; now left|].
  repeat split.
Qed.

End Accounts.

(* ================================================================== *)
(** * Self-service and deletion *)

Section SelfService.
Context `{Crypto}.

(** X16.  [PUT /users/me] reaches only the caller's profile: whatever the
    body and whatever the outcome, the handler answers, and no username,
    email, role, status, remark or last-login stamp of any user, no
    session row and no audit row is changed. *)
Theorem update_me_touches_only_profile
  salt reqUser nickname avatar password db :
  exists response db',
    Handlers.update_me salt reqUser nickname avatar password db
      = (Return response, db') /\
    List.map forget_profile (user db') = List.map forget_profile (user db) /\
    userSession db' = userSession db /\
    userLoginLog db' = userLoginLog db.
Proof.
  unfold Handlers.update_me, try_catch. unfold bind at 1.
  destruct (Js.truthy password && (Js.length (text password) <? 6)%nat).
  { eexists _, _. split; [reflexivity|]. repeat split. }
  destruct (Nat.eqb _ 0).
  { eexists _, _. split; [reflexivity|]. repeat split. }
  unfold UserModel.updateUser. run.
  cbn [UpdateData.username UpdateData.email Js.truthy orb].
  destruct (UpdateData.valid _).
  - unfold Prisma.user_update.
    destruct (List.find _ (user db)) as [row|] eqn:Hrow.
    + destruct (Prisma.user_unique_ok _ _ _ db).
      * eexists _, _. split; [reflexivity|].
        cbn [user userSession userLoginLog with_user].
        split; [|split; reflexivity].
        now apply (map_replace_user forget_profile _ _ _ row).
      * eexists _, _. split; [reflexivity|]. repeat split.
    + eexists _, _. split; [reflexivity|]. repeat split.
  - eexists _, _. split; [reflexivity|]. repeat split.
Qed.

End SelfService.

(** Where a thrown [deleteUser] leaves the database. *)
Lemma deleteUser_thrown fault userId db e db' :
  UserModel.deleteUser fault userId db = (Throw e, db') -> db' = db.
Proof.
  intros Hrun.
  destruct (by_id userId db) as [row|] eqn:Hrow.
  - assert (UserModel.deleteUser fault userId db =
            match fault with
            | Some 0%nat | Some 1%nat | Some 2%nat =>
                (Throw (Exn.PrismaError "Transaction failed"), db)
            | _ => (Return row, cascade_deleted userId db)
            end) as Hcase.
    { unfold UserModel.deleteUser.
      rewrite (bind_returns _ _ db (Some row) db)
        by (unfold by_id in Hrow; unfold Prisma.user_findUnique,
              Prisma.user_findFirst; now rewrite Hrow).
      cbn beta iota.
      pose proof (run_delete_batch fault userId db row Hrow) as Hbatch.
      destruct fault as [[|[|[|n]]]|];
        [ erewrite bind_throws; [reflexivity|] ..
        | erewrite bind_returns; [reflexivity|]
        | erewrite bind_returns; [reflexivity|] ];
        unfold Prisma.transaction; rewrite Hbatch; reflexivity. }
    rewrite Hcase in Hrun.
    destruct fault as [[|[|[|n]]]|]; try discriminate;
      now injection Hrun as _ <-.
  - unfold UserModel.deleteUser in Hrun.
    rewrite (bind_returns _ _ db None db) in Hrun
      by (unfold by_id in Hrow; unfold Prisma.user_findUnique,
            Prisma.user_findFirst; now rewrite Hrow).
    now injection Hrun as _ <-.
Qed.

Lemma getUserInfo_result userId db :
  UserModel.getUserInfo userId db =
  (match by_id userId db with
   | Some u => Return u
   | None => Throw NotFound
   end, db).
Proof.
  unfold UserModel.getUserInfo, by_id. run.
  destruct (List.find _ (user db)); reflexivity.
Qed.

(** X17.  [DELETE /users/:id] always answers, and the only change it ever
    makes is the cascade deletion of the user whose id [parseInt] reads
    from the path, who is never the caller; it then answers 200.  Every
    other answer leaves the database as it was. *)
Theorem delete_user_changes_only_by_deleting fault reqUser params_id db :
  exists response db',
    Handlers.delete_user fault reqUser params_id db = (Return response, db') /\
    (db' = db \/
     exists userId,
       Str.parseInt params_id = Some userId /\
       userId <> id reqUser /\
       db' = cascade_deleted userId db /\
       response = Http.mk 200 (Http.envelope 200 "删除成功")).
Proof.
  unfold Handlers.delete_user.
  destruct (Str.parseInt params_id) as [userId|].
  2:{ eexists _, _. split; [reflexivity | now left]. }
  destruct (Z.eqb (id reqUser) userId) eqn:Hself.
  { eexists _, _. split; [reflexivity | now left]. }
  apply Z.eqb_neq in Hself.
  assert (exists o,
             (if String.eqb (role reqUser) "admin"
              then targetUser <- UserModel.getUserInfo userId ;;
                   ret (String.eqb (User.role targetUser) "superadmin")
              else ret false) db = (o, db) /\
             (o = Throw NotFound \/ exists b, o = Return b))
    as (guard & Hguard & Hcase).
  { destruct (String.eqb (role reqUser) "admin").
    - destruct (by_id userId db) as [t|] eqn:Ht.
      + eexists. split; [|right; now eexists].
        erewrite bind_returns
          by (rewrite getUserInfo_result, Ht; reflexivity).
        reflexivity.
      + eexists. split; [|now left].
        erewrite bind_throws
          by (rewrite getUserInfo_result, Ht; reflexivity).
        reflexivity.
    - eexists. split; [reflexivity | right; now eexists]. }
  unfold try_catch.
  destruct Hcase as [-> | [[|] ->]].
  - erewrite bind_throws by exact Hguard.
    eexists _, _. split; [reflexivity | now left].
  - erewrite bind_returns by exact Hguard.
    eexists _, _. split; [reflexivity | now left].
  - erewrite bind_returns by exact Hguard. cbn beta iota.
    destruct (UserModel.deleteUser fault userId db) as [[u|e] db1] eqn:Hrun.
    + erewrite bind_returns by exact Hrun.
      eexists _, _. split; [reflexivity|]. right. exists userId.
      split; [reflexivity|]. split; [congruence|].
      split; [exact (deleteUser_returned _ _ _ _ _ Hrun) | reflexivity].
    + erewrite bind_throws by exact Hrun.
      rewrite (deleteUser_thrown _ _ _ _ _ Hrun).
      destruct (String.eqb (Exn.message e) "用户不存在");
        eexists _, _; (split; [reflexivity | now left]).
Qed.

(** X18.  An admin never deletes a superadmin: when the caller's role is
    admin and the addressed user is a superadmin, [DELETE /users/:id]
    answers 403 and deletes nothing, whatever else holds. *)
Theorem admin_cannot_delete_superadmin
  fault reqUser params_id userId target db :
  role reqUser = "admin" ->
  Str.parseInt params_id = Some userId ->
  by_id userId db = Some target ->
  User.role target = "superadmin" ->
  userId <> id reqUser ->
  Handlers.delete_user fault reqUser params_id db =
  (Return (Http.mk 403 (Http.envelope 403 "权限不足，无法删除超级管理员")), db).
Proof.
  intros Hadmin Hid Htarget Hsuper Hother.
  unfold Handlers.delete_user. rewrite Hid.
  assert (Z.eqb (id reqUser) userId = false) as ->
      by (apply Z.eqb_neq; congruence).
  rewrite (proj2 (String.eqb_eq _ _) Hadmin).
  unfold try_catch.
  erewrite bind_returns.
  2:{ erewrite bind_returns
        by (rewrite getUserInfo_result, Htarget; reflexivity).
      reflexivity. }
  rewrite (proj2 (String.eqb_eq _ _) Hsuper). reflexivity.
Qed.

(* ================================================================== *)
(** * An authenticated session, end to end *)

Section Session.
Context `{Crypto} (env : Env).

(** X19.  With the identity and token [authJWT] has attached, [GET /auth/me]
    answers 200 with the stored row of that very identity, and
    [POST /auth/logout] as well as [POST /auth/logout-all] answer 200 and
    leave a database in which the same header, its signature still
    verifying, is answered SessionRevoked. *)
Theorem authenticated_session_end_to_end now now' h db reqUser reqToken :
  authJWT env now (Some h) db = (Return (Authenticated reqUser reqToken), db) ->
  jwt_verify (bearer h) (JWT_SECRET env) now'
    = jwt_verify (bearer h) (JWT_SECRET env) now ->
  (exists row,
      Handlers.me reqUser db = (Return (Http.mk 200 (Http.user_json row)), db) /\
      identity_of row = reqUser) /\
  (exists db1,
      Handlers.logout reqUser reqToken db =
        (Return (Http.mk 200 (Http.envelope 200 "登出成功")), db1) /\
      authJWT env now' (Some h) db1 = (Return SessionRevoked, db1)) /\
  (exists db2,
      Handlers.logout_all reqUser db =
        (Return (Http.mk 200 (Http.envelope 200 "所有设备已登出")), db2) /\
      authJWT env now' (Some h) db2 = (Return SessionRevoked, db2)).
Proof.
  intros Hauth Hstill.
  assert (h <> "" /\ bearer h <> "" /\ bearer h = reqToken)
    as (Hh & Hne & Htok).
  { revert Hauth. unfold authJWT. run.
    destruct (String.eqb_spec h "") as [|Hh]; [discriminate|].
    fold (bearer h).
    destruct (String.eqb_spec (bearer h) "") as [|Hne]; [discriminate|].
    destruct (jwt_verify _ _ now) as [claims|e].
    - destruct (List.find _ (user db)) as [row|]; [|discriminate].
      destruct (negb (String.eqb (User.status row) "active"));
        [discriminate|].
      destruct (List.find _ (userSession db)); [|discriminate].
      intros Heq. injection Heq as _ Htok. auto.
    - destruct (String.eqb (Exn.name e) "JsonWebTokenError"); [discriminate|].
      destruct (String.eqb (Exn.name e) "TokenExpiredError"); discriminate. }
  destruct (authJWT_authenticated_inv env _ _ _ _ _ _ Hauth)
    as (claims & row & s & Hver & Hrow & -> & Hact & _ & _).
  subst reqToken.
  assert (User.id row = Jwt.userId claims) as Hid.
  { unfold owner, by_id in Hrow. apply List.find_some in Hrow.
    now apply Z.eqb_eq. }
  split.
  - exists row. split; [|reflexivity].
    unfold Handlers.me, try_catch.
    erewrite bind_returns; [reflexivity|].
    rewrite getUserInfo_result. cbn [id identity_of]. rewrite Hid.
    unfold owner in Hrow. now rewrite Hrow.
  - rewrite Hver in Hstill. split.
    + eexists. split.
      * unfold Handlers.logout, try_catch.
        erewrite bind_returns by apply logout_result. reflexivity.
      * cbn [id identity_of].
        pose proof (logout_revokes_token env now' h db row claims
                      (Js.str (bearer h)) Hh Hne Hstill Hrow Hact
                      (or_introl eq_refl)) as Hout.
        rewrite logout_result in Hout. cbn [snd] in Hout. exact Hout.
    + eexists. split.
      * unfold Handlers.logout_all, try_catch.
        erewrite bind_returns by apply logout_result. reflexivity.
      * cbn [id identity_of].
        pose proof (logout_revokes_token env now' h db row claims
                      Js.null Hh Hne Hstill Hrow Hact
                      (or_intror eq_refl)) as Hout.
        rewrite logout_result in Hout. cbn [snd] in Hout. exact Hout.
Qed.

End Session.


(* ================================================================== *)
(** * Product associations *)

Lemma same_eq (a b : Product.key) : Product.same a b = true <-> a = b.
Proof.
  destruct a as [x|x|], b as [y|y|]; cbn; split; intros Heq;
    try discriminate; try reflexivity.
  - apply Z.eqb_eq in Heq. now subst.
  - injection Heq as ->. apply Z.eqb_refl.
  - apply String.eqb_eq in Heq. now subst.
  - injection Heq as ->. apply String.eqb_refl.
Qed.

Lemma same_refl (a : Product.key) : Product.same a a = true.
Proof. now apply same_eq. Qed.

Lemma filter_all {A} (p : A -> bool) (l : list A) :
  (forall x, In x l -> p x = true) -> List.filter p l = l.
Proof.
  intros Hall. induction l as [|a l IH]; [reflexivity|].
  cbn. rewrite (Hall a (or_introl eq_refl)). f_equal.
  apply IH. intros x Hx. apply Hall. now right.
Qed.

Lemma filter_length_same {A} (p : A -> bool) (l : list A) :
  List.length (List.filter p l) = List.length l -> List.filter p l = l.
Proof.
  induction l as [|a l IH]; [reflexivity|].
  cbn. destruct (p a); cbn; intros Hlen.
  - f_equal. apply IH. lia.
  - pose proof (List.filter_length_le p l). lia.
Qed.

Lemma absent_of_existsb pid (l : list Product.t) :
  List.existsb (fun p => Product.same (Product.id p) pid) l = false ->
  forall p, In p l -> negb (Product.same (Product.id p) pid) = true.
Proof.
  intros Hno p Hp. apply negb_true_iff.
  destruct (Product.same (Product.id p) pid) eqn:Hsame; [|reflexivity].
  assert (List.existsb (fun q => Product.same (Product.id q) pid) l = true)
    as Hyes by (apply List.existsb_exists; now exists p).
  congruence.
Qed.

(** X20.  A product is attached once: after [addUserProduct] has attached
    a product, attaching a product with the same id again, under whatever
    name, is refused with the duplicate report and changes nothing. *)
Theorem add_product_twice_is_refused
  joinedAt1 joinedAt2 userId info name2 db column result column1 :
  ProductModel.addUserProduct joinedAt1 userId info db column
    = (Return result, column1) ->
  ProductModel.addUserProduct joinedAt2 userId
    (Product.mkInfo (Product.info_id info) name2) db column1
    = (Throw (Exn.Error "产品已关联"), column1).
Proof.
  unfold ProductModel.addUserProduct.
  destruct (List.find _ (user db)) as [u|]; [|discriminate].
  destruct (List.existsb _ (column userId)); [discriminate|].
  intros Heq. injection Heq as _ <-.
  unfold set_products at 1. rewrite Z.eqb_refl.
  cbn [Product.info_id].
  rewrite List.existsb_app. cbn [List.existsb Product.id].
  rewrite same_refl, orb_true_r. reflexivity.
Qed.

(** X21.  The ids of a user's products stay pairwise distinct: neither
    [addUserProduct] nor [removeUserProduct], returning or throwing, ever
    leaves a list with a repeated id behind. *)
Theorem product_ids_stay_distinct joinedAt userId info productId db column :
  (forall i, List.NoDup (List.map Product.id (column i))) ->
  (forall i,
      List.NoDup
        (List.map Product.id
           (snd (ProductModel.addUserProduct joinedAt userId info db column)
                i))) /\
  (forall i,
      List.NoDup
        (List.map Product.id
           (snd (ProductModel.removeUserProduct userId productId db column)
                i))).
Proof.
  intros Hdistinct. split; intros i.
  - unfold ProductModel.addUserProduct.
    destruct (List.find _ (user db)) as [u|]; [|apply Hdistinct].
    destruct (List.existsb _ (column userId)) eqn:Hdup; [apply Hdistinct|].
    cbn [snd]. unfold set_products.
    destruct (Z.eqb i userId); [|apply Hdistinct].
    apply NoDup_map_snoc; [apply Hdistinct|].
    intros p Hp. cbn [Product.id].
    pose proof (absent_of_existsb _ _ Hdup p Hp) as Hne.
    apply negb_true_iff in Hne. intros Heq.
    apply same_eq in Heq. congruence.
  - unfold ProductModel.removeUserProduct.
    destruct (List.find _ (user db)) as [u|]; [|apply Hdistinct].
    destruct (Nat.eqb _ _); [apply Hdistinct|].
    cbn [snd]. unfold set_products.
    destruct (Z.eqb i userId); [|apply Hdistinct].
    specialize (Hdistinct userId).
    induction (column userId) as [|p l IH]; [constructor|].
    cbn in *. inversion Hdistinct as [|? ? Hnotin Hrest]; subst.
    destruct (negb (Product.same (Product.id p) productId)); [|now apply IH].
    cbn. constructor; [|now apply IH].
    intros Hin. apply Hnotin.
    apply List.in_map_iff in Hin. destruct Hin as (q & Hq & Hqin).
    apply List.filter_In in Hqin. destruct Hqin as [Hqin _].
    apply List.in_map_iff. now exists q.
Qed.

(** X22.  What the product operations refuse: both throw the not-found
    report for a user that is not stored, and [removeUserProduct] throws
    the missing-association report when no product of the user has the
    id; in each case the lists are left as they were. *)
Theorem product_operations_refusals
  joinedAt userId info productId db column :
  (by_id userId db = None ->
   ProductModel.addUserProduct joinedAt userId info db column
     = (Throw NotFound, column) /\
   ProductModel.removeUserProduct userId productId db column
     = (Throw NotFound, column)) /\
  (forall u,
      by_id userId db = Some u ->
      (forall p, In p (column userId) -> Product.id p <> productId) ->
      ProductModel.removeUserProduct userId productId db column
        = (Throw (Exn.Error "产品关联不存在"), column)).
Proof.
  unfold by_id, ProductModel.addUserProduct, ProductModel.removeUserProduct.
  split.
  - intros ->. split; reflexivity.
  - intros u -> Habsent.
    rewrite filter_all; [now rewrite Nat.eqb_refl|].
    intros p Hp. apply negb_true_iff.
    destruct (Product.same (Product.id p) productId) eqn:Hsame;
      [|reflexivity].
    apply same_eq in Hsame. now apply Habsent in Hp.
Qed.

(** X23.  Attach, then detach: removing the product that [addUserProduct]
    has just attached succeeds and puts every user's list back to what it
    was before the product was attached. *)
Theorem add_then_remove_restores
  joinedAt userId info db column result column1 :
  ProductModel.addUserProduct joinedAt userId info db column
    = (Return result, column1) ->
  exists result' column2,
    ProductModel.removeUserProduct userId (Product.info_id info) db column1
      = (Return result', column2) /\
    list_products result' = column userId /\
    forall i, column2 i = column i.
Proof.
  unfold ProductModel.addUserProduct, ProductModel.removeUserProduct.
  destruct (List.find _ (user db)) as [u|]; [|discriminate].
  destruct (List.existsb _ (column userId)) eqn:Hdup; [discriminate|].
  intros Heq. injection Heq as _ <-. cbv zeta.
  set (attached := (column userId ++
                      [Product.mk (Product.info_id info)
                                  (Product.info_name info) joinedAt])%list).
  assert (set_products userId attached column userId = attached) as Hread
      by (unfold set_products; now rewrite Z.eqb_refl).
  rewrite !Hread.
  assert (List.filter
            (fun p => negb (Product.same (Product.id p)
                                         (Product.info_id info)))
            attached = column userId) as Hback.
  { unfold attached. rewrite List.filter_app. cbn [List.filter Product.id].
    rewrite same_refl. cbn [negb]. rewrite List.app_nil_r.
    apply filter_all, (absent_of_existsb _ _ Hdup). }
  rewrite !Hback.
  assert (Nat.eqb (List.length (column userId)) (List.length attached)
          = false) as ->.
  { apply Nat.eqb_neq. unfold attached. rewrite List.length_app.
    cbn [List.length]. lia. }
  eexists _, _. split; [reflexivity|]. split; [reflexivity|].
  intros i. unfold set_products. now destruct (Z.eqb_spec i userId) as [->|].
Qed.

(** X24.  The product routes reach one list only: whatever they answer,
    the list of every user other than the one whose id [parseInt] reads
    from the path is left as it was. *)
Theorem product_routes_keep_other_lists
  joinedAt currentUser params_userId info params_productId db column i :
  Str.parseInt params_userId <> Some i ->
  snd (ProductRoutes.add joinedAt currentUser params_userId info db column) i
    = column i /\
  snd (ProductRoutes.remove currentUser params_userId params_productId db
                            column) i
    = column i.
Proof.
  intros Hother.
  unfold ProductRoutes.add, ProductRoutes.remove,
    ProductModel.addUserProduct, ProductModel.removeUserProduct.
  destruct (ProductRoutes.denied currentUser params_userId);
    [split; reflexivity|].
  destruct (Str.parseInt params_userId) as [userId|]; [|split; reflexivity].
  assert (Z.eqb i userId = false) as Hne
      by (apply Z.eqb_neq; congruence).
  destruct (List.find _ (user db)) as [u|]; [|split; reflexivity].
  split.
  - destruct (List.existsb _ (column userId)); [reflexivity|].
    cbn [snd]. unfold set_products. now rewrite Hne.
  - destruct (Nat.eqb _ _); [reflexivity|].
    cbn [snd]. unfold set_products. now rewrite Hne.
Qed.

(** X25.  The path's product id is a string and ids are compared with
    [===], so [DELETE /users/:userId/products/:productId] never removes a
    product whose id is a number or absent: whatever the request, such a
    product is still in its list afterwards. *)
Theorem remove_route_keeps_non_string_ids
  currentUser params_userId params_productId db column i p :
  In p (column i) ->
  (forall s, Product.id p <> Product.str s) ->
  In p (snd (ProductRoutes.remove currentUser params_userId params_productId
                                  db column) i).
Proof.
  intros Hin Hkey.
  unfold ProductRoutes.remove, ProductModel.removeUserProduct.
  destruct (ProductRoutes.denied currentUser params_userId); [exact Hin|].
  destruct (Str.parseInt params_userId) as [userId|]; [|exact Hin].
  destruct (List.find _ (user db)) as [u|]; [|exact Hin].
  destruct (Nat.eqb _ _); [exact Hin|].
  cbn [snd]. unfold set_products.
  destruct (Z.eqb_spec i userId) as [->|]; [|exact Hin].
  apply List.filter_In. split; [exact Hin|].
  apply negb_true_iff.
  destruct (Product.same (Product.id p) (Product.str params_productId))
    eqn:Hsame; [|reflexivity].
  apply same_eq in Hsame. now apply Hkey in Hsame.
Qed.

(** X26.  Who may change whose products: a caller gets past
    [authorizeRoles('admin', 'user')] and the handlers' own check exactly
    when the caller is an admin, or is a user and [parseInt] reads the
    caller's own id from the path.  A superadmin gets past neither for
    anyone. *)
Theorem product_routes_let_in currentUser params_userId :
  (authorizeRoles ProductRoutes.roles (Some currentUser) = None /\
   ProductRoutes.denied currentUser params_userId = false) <->
  (role currentUser = "admin" \/
   (role currentUser = "user" /\
    Str.parseInt params_userId = Some (id currentUser))).
Proof.
  unfold authorizeRoles, ProductRoutes.roles, ProductRoutes.denied.
  cbn [List.existsb].
  destruct (String.eqb_spec (role currentUser) "admin") as [Hadmin|Hadmin].
  - cbn [orb negb andb]. split; [now left | now split].
  - cbn [orb negb andb]. rewrite orb_false_r.
    destruct (String.eqb_spec (role currentUser) "user") as [Huser|Huser].
    + split.
      * intros [_ Hown]. right. split; [assumption|].
        apply negb_false_iff in Hown.
        destruct (Str.parseInt params_userId) as [i|]; [|discriminate].
        apply Z.eqb_eq in Hown. now subst.
      * intros [Hno | [_ Hown]]; [contradiction|].
        split; [reflexivity|]. rewrite Hown. now rewrite Z.eqb_refl.
    + split.
      * intros [Hno _]. discriminate.
      * intros [Hno | [Hno _]]; contradiction.
Qed.

(* ================================================================== *)
(** * The timestamp middleware *)

Module TimestampFacts.
Import Timestamp.

Lemma value_induction (P : value -> Prop) :
  P null -> P undefined ->
  (forall b, P (bool b)) -> (forall n, P (num n)) -> (forall s, P (str s)) ->
  (forall ms, P (date ms)) ->
  (forall items, List.Forall P items -> P (arr items)) ->
  (forall fields, List.Forall (fun kv => P (snd kv)) fields ->
                  P (obj fields)) ->
  forall v, P v.
Proof.
  intros Hnull Hundef Hbool Hnum Hstr Hdate Harr Hobj.
  fix IH 1. intros [ | | b | n | s | ms | items | fields].
  - exact Hnull.
  - exact Hundef.
  - apply Hbool.
  - apply Hnum.
  - apply Hstr.
  - apply Hdate.
  - apply Harr. induction items as [|x xs IHxs]; constructor;
      [apply IH | exact IHxs].
  - apply Hobj. induction fields as [|[k x] fs IHfs]; constructor;
      [apply IH | exact IHfs].
Qed.

(** A value without a [Date] and without a [__proto__] key is returned
    as it is. *)
Lemma transform_without_date v :
  plain v = true -> has_date v = false -> transformDateTimeToTimestamp v = v.
Proof.
  induction v as [ | | b | n | s | ms | items IH | fields IH]
    using value_induction; cbn; intros Hplain Hno;
    try reflexivity; try discriminate.
  - f_equal. induction IH as [|x xs Hx _ IHxs]; [reflexivity|].
    cbn in *. apply orb_false_elim in Hno. destruct Hno as [Hx0 Hxs0].
    apply andb_prop in Hplain. destruct Hplain as [Hp Hps].
    now rewrite Hx, IHxs.
  - f_equal. induction IH as [|[k x] fs Hx _ IHfs]; [reflexivity|].
    cbn in *. apply orb_false_elim in Hno. destruct Hno as [Hx0 Hfs0].
    apply andb_prop in Hplain. destruct Hplain as [Hp Hps].
    apply andb_prop in Hp. destruct Hp as [Hk Hp].
    rewrite Hk. cbn. now rewrite Hx, IHfs.
Qed.

(** What the transformation returns has neither a [Date] nor a
    [__proto__] key. *)
Lemma transform_clean v :
  has_date (transformDateTimeToTimestamp v) = false /\
  plain (transformDateTimeToTimestamp v) = true.
Proof.
  induction v as [ | | b | n | s | ms | items IH | fields IH]
    using value_induction; cbn; try (split; reflexivity).
  - induction IH as [|x xs [Hx Hx'] _ [IHxs IHxs']]; [split; reflexivity|].
    cbn. now rewrite Hx, Hx', IHxs, IHxs'.
  - induction IH as [|[k x] fs [Hx Hx'] _ [IHfs IHfs']];
      [split; reflexivity|].
    cbn in *. destruct (assignable k) eqn:Hk; cbn.
    + now rewrite Hk, Hx, Hx', IHfs, IHfs'.
    + now rewrite IHfs, IHfs'.
Qed.

(** Where no key is [__proto__] the fields are transformed one by one. *)
Lemma transform_fields fields :
  List.forallb
    (fun kv => match kv with (key, x) => assignable key && plain x end)
    fields = true ->
  List.flat_map
    (fun kv => match kv with
               | (key, x) =>
                   if assignable key
                   then [(key, transformDateTimeToTimestamp x)]
                   else []
               end) fields
  = List.map
      (fun kv => match kv with
                 | (key, x) => (key, transformDateTimeToTimestamp x)
                 end) fields.
Proof.
  induction fields as [|[k x] fs IH]; [reflexivity|].
  cbn. intros Hplain. apply andb_prop in Hplain. destruct Hplain as [Hp Hps].
  apply andb_prop in Hp. destruct Hp as [Hk _].
  rewrite Hk. cbn. now rewrite IH.
Qed.

(** The transformation commutes with going to a position. *)
Lemma transform_at_path path : forall v,
  plain v = true ->
  at_path path (transformDateTimeToTimestamp v)
    = option_map transformDateTimeToTimestamp (at_path path v).
Proof.
  induction path as [|i rest IH]; intros v Hplain; [reflexivity|].
  destruct v as [ | | b | n | s | ms | items | fields]; try reflexivity.
  - cbn [transformDateTimeToTimestamp at_path].
    rewrite List.nth_error_map.
    destruct (List.nth_error items i) as [x|] eqn:Hx; [|reflexivity].
    cbn [option_map]. apply IH.
    cbn [plain] in Hplain. rewrite List.forallb_forall in Hplain.
    apply Hplain. now apply List.nth_error_In in Hx.
  - cbn [transformDateTimeToTimestamp at_path].
    cbn [plain] in Hplain. rewrite (transform_fields _ Hplain).
    rewrite List.nth_error_map.
    destruct (List.nth_error fields i) as [[k x]|] eqn:Hx; [|reflexivity].
    cbn [option_map]. apply IH.
    rewrite List.forallb_forall in Hplain.
    apply List.nth_error_In in Hx. apply Hplain in Hx.
    apply andb_prop in Hx. now destruct Hx.
Qed.

(** X27.  What the transformation returns holds no [Date], so a second
    pass changes nothing; and in a body in which no object has a
    [__proto__] key, every [Date], wherever it sits, has become the whole
    number of seconds of its time, rounded down. *)
Theorem transform_leaves_no_date v :
  has_date (transformDateTimeToTimestamp v) = false /\
  transformDateTimeToTimestamp (transformDateTimeToTimestamp v)
    = transformDateTimeToTimestamp v /\
  (plain v = true ->
   forall path ms,
     at_path path v = Some (date ms) ->
     exists seconds,
       at_path path (transformDateTimeToTimestamp v) = Some (num seconds) /\
       1000 * seconds <= ms < 1000 * (seconds + 1)).
Proof.
  destruct (transform_clean v) as [Hdate Hplain].
  split; [exact Hdate|]. split.
  - now apply transform_without_date.
  - intros Hv path ms Hat. exists (ms / 1000). split.
    + rewrite (transform_at_path path v Hv), Hat. reflexivity.
    + pose proof (Z.div_mod ms 1000 ltac:(lia)) as Hdiv.
      pose proof (Z.mod_pos_bound ms 1000 ltac:(lia)) as Hmod. lia.
Qed.

(** X28.  The transformation changes dates and nothing else: in a body in
    which no object has a [__proto__] key, the nesting, the length of
    each array and the keys of each object, in their order, are kept;
    every value that is neither a [Date] nor an array nor an object is
    found unchanged at its position; and a body without a [Date] is
    returned as it is. *)
Theorem transform_changes_only_dates v :
  plain v = true ->
  (has_date v = false -> transformDateTimeToTimestamp v = v) /\
  skeleton (transformDateTimeToTimestamp v) = skeleton v /\
  (forall path x,
      at_path path v = Some x ->
      is_scalar x = true ->
      at_path path (transformDateTimeToTimestamp v) = Some x).
Proof.
  intros Hplain. split; [now apply transform_without_date|]. split.
  - revert Hplain.
    induction v as [ | | b | n | s | ms | items IH | fields IH]
      using value_induction; cbn; intros Hplain; try reflexivity.
    + f_equal. induction IH as [|x xs Hx _ IHxs]; [reflexivity|].
      cbn in *. apply andb_prop in Hplain. destruct Hplain as [Hp Hps].
      now rewrite Hx, IHxs.
    + f_equal. induction IH as [|[k x] fs Hx _ IHfs]; [reflexivity|].
      cbn in *. apply andb_prop in Hplain. destruct Hplain as [Hp Hps].
      apply andb_prop in Hp. destruct Hp as [Hk Hp].
      rewrite Hk. cbn. now rewrite Hx, IHfs.
  - intros path x Hat Hscalar.
    rewrite (transform_at_path path v Hplain), Hat. cbn [option_map].
    f_equal. now destruct x.
Qed.

Lemma transform_leaves_no_date_witness :
  exists seconds,
    at_path [2%nat; 1%nat]
      (transformDateTimeToTimestamp
         (obj [("id", num 7);
               ("createdAt", date 1700000000123);
               ("tags", arr [str "a"; date 5999])]))
      = Some (num seconds) /\
    1000 * seconds <= 5999 < 1000 * (seconds + 1).
Proof.
  exact (proj2 (proj2 (transform_leaves_no_date
                         (obj [("id", num 7);
                               ("createdAt", date 1700000000123);
                               ("tags", arr [str "a"; date 5999])])))
               eq_refl [2%nat; 1%nat] 5999 eq_refl).
Defined.

Lemma transform_changes_only_dates_witness :
  plain (obj [("id", num 7);
              ("createdAt", date 1700000000123);
              ("tags", arr [str "a"; date 5999])]) = true /\
  skeleton (transformDateTimeToTimestamp
              (obj [("id", num 7);
                    ("createdAt", date 1700000000123);
                    ("tags", arr [str "a"; date 5999])]))
    = obj [("id", null); ("createdAt", null); ("tags", arr [null; null])] /\
  at_path [2%nat; 0%nat]
    (transformDateTimeToTimestamp
       (obj [("id", num 7);
             ("createdAt", date 1700000000123);
             ("tags", arr [str "a"; date 5999])]))
    = Some (str "a").
Proof.
  split; [reflexivity|].
  pose proof (transform_changes_only_dates
                (obj [("id", num 7);
                      ("createdAt", date 1700000000123);
                      ("tags", arr [str "a"; date 5999])])
                eq_refl) as (_ & Hskeleton & Hscalars).
  split; [exact Hskeleton|].
  exact (Hscalars [2%nat; 0%nat] (str "a") eq_refl eq_refl).
Defined.

End TimestampFacts.

(* ================================================================== *)
(** * Blocking needs a remark; whole hours agree *)

Section Remaining.
Context `{Crypto} (env : Env).

(** X29.  [PUT /users/:id] never blocks a user without a remark: a request
    that sets status to ['blocked'] and carries no remark, or an empty
    one, is answered with a status other than 200 and changes nothing;
    for a caller who is not an admin and a path from which [parseInt]
    reads a number the answer is the 400 that asks for the remark. *)
Theorem update_never_blocks_without_remark salt reqUser params_id body db :
  Js.is_str (UpdateData.status body) "blocked" = true ->
  Js.truthy (UpdateData.disabledRemark body) = false ->
  exists response,
    Routes.update salt reqUser params_id body db = (Return response, db) /\
    Http.status response <> 200 /\
    (role reqUser <> "admin" ->
     Str.parseInt params_id <> None ->
     response = Http.mk 400 (Http.envelope 400 "禁用用户时必须添加备注")).
Proof.
  intros Hblocked Hremark. unfold Routes.update.
  destruct (Str.parseInt params_id) as [userId|].
  2:{ eexists. split; [reflexivity|]. split; [discriminate|].
      intros _ Hnum. now contradiction Hnum. }
  assert (exists o,
             (if String.eqb (role reqUser) "admin"
              then targetUser <- UserModel.getUserInfo userId ;;
                   ret (String.eqb (User.role targetUser) "superadmin")
              else ret false) db = (o, db) /\
             (o = Throw NotFound \/ exists b, o = Return b) /\
             (role reqUser <> "admin" -> o = Return false))
    as (guard & Hguard & Hcase & Hplain).
  { destruct (String.eqb_spec (role reqUser) "admin") as [Hadmin|Hadmin].
    - destruct (by_id userId db) as [t|] eqn:Ht.
      + eexists. split; [|split; [right; now eexists | contradiction]].
        erewrite bind_returns
          by (rewrite getUserInfo_result, Ht; reflexivity).
        reflexivity.
      + eexists. split; [|split; [now left | contradiction]].
        erewrite bind_throws
          by (rewrite getUserInfo_result, Ht; reflexivity).
        reflexivity.
    - eexists. split; [reflexivity|].
      split; [right; now eexists | reflexivity]. }
  unfold try_catch.
  destruct Hcase as [-> | [[|] ->]].
  - erewrite bind_throws by exact Hguard.
    eexists. split; [reflexivity|]. split; [discriminate|].
    intros Hrole. specialize (Hplain Hrole). discriminate.
  - erewrite bind_returns by exact Hguard.
    eexists. split; [reflexivity|]. split; [discriminate|].
    intros Hrole. specialize (Hplain Hrole). discriminate.
  - erewrite bind_returns by exact Hguard. cbn beta iota zeta.
    rewrite Hblocked, Hremark. cbn [negb andb].
    eexists. split; [reflexivity|]. split; [discriminate | reflexivity].
Qed.

End Remaining.


(* ================================================================== *)
(** * The further statements at concrete inputs *)

Ltac decode_header Hh Hver :=
  injection Hh as <-; vm_compute in Hver; injection Hver as <-.

Lemma authJWT_rejects_unverified_token_witness :
  authJWT (H:=Fixture.crypto) Fixture.env 2000000 (Some "Bearer forged")
          Fixture.db_live = (Return InvalidToken, Fixture.db_live) /\
  authJWT (H:=Fixture.crypto) Fixture.env 87400000
          (Some "Bearer jwt.alice.s3cret") Fixture.db_live
    = (Return ExpiredToken, Fixture.db_live).
Proof.
  split.
  - apply (proj1 (authJWT_rejects_unverified_token
                    (H:=Fixture.crypto) Fixture.env 2000000 "Bearer forged"
                    Fixture.db_live
                    ltac:(discriminate) ltac:(vm_compute; discriminate))).
    reflexivity.
  - apply (proj2 (authJWT_rejects_unverified_token
                    (H:=Fixture.crypto) Fixture.env 87400000
                    "Bearer jwt.alice.s3cret" Fixture.db_live
                    ltac:(discriminate) ltac:(vm_compute; discriminate))
                 Fixture.alice_claims eq_refl).
    vm_compute. discriminate.
Defined.

Lemma authJWT_bare_token_header_witness :
  authJWT (H:=Fixture.crypto) Fixture.env 2000000 (Some "jwt.alice.s3cret")
          Fixture.db_live
    = authJWT (H:=Fixture.crypto) Fixture.env 2000000
              (Some ("Bearer " ++ "jwt.alice.s3cret")) Fixture.db_live.
Proof.
  apply (authJWT_bare_token_header (H:=Fixture.crypto));
    [discriminate | reflexivity].
Defined.

Lemma logout_revokes_token_witness :
  authJWT (H:=Fixture.crypto) Fixture.env 2000000
          (Some "Bearer jwt.alice.s3cret")
          (snd (UserModel.logout 1 (Js.str "jwt.alice.s3cret")
                                 Fixture.db_live))
    = (Return SessionRevoked,
       snd (UserModel.logout 1 (Js.str "jwt.alice.s3cret") Fixture.db_live)).
Proof.
  apply (logout_revokes_token
           (H:=Fixture.crypto) Fixture.env 2000000 "Bearer jwt.alice.s3cret"
           Fixture.db_live Fixture.alice Fixture.alice_claims
           (Js.str "jwt.alice.s3cret"));
    try reflexivity; try discriminate; try (vm_compute; discriminate).
  now left.
Defined.

Lemma logout_leaves_others_alone_witness :
  fst (authJWT (H:=Fixture.crypto) Fixture.env 2000000
               (Some "Bearer jwt.alice.s3cret")
               (snd (UserModel.logout 2 Js.null Fixture.db_live)))
    = fst (authJWT (H:=Fixture.crypto) Fixture.env 2000000
                   (Some "Bearer jwt.alice.s3cret") Fixture.db_live).
Proof.
  apply (logout_leaves_others_alone (H:=Fixture.crypto)).
  intros h claims Hh Hver. decode_header Hh Hver. left. discriminate.
Defined.

Lemma deleted_user_is_locked_out_witness :
  fst (authJWT (H:=Fixture.crypto) Fixture.env 2000000
               (Some "Bearer jwt.alice.s3cret")
               (cascade_deleted 2 Fixture.db_live))
    = fst (authJWT (H:=Fixture.crypto) Fixture.env 2000000
                   (Some "Bearer jwt.alice.s3cret") Fixture.db_live).
Proof.
  apply (proj2 (deleted_user_is_locked_out
                  (H:=Fixture.crypto) Fixture.env 2000000
                  (Some "Bearer jwt.alice.s3cret") None 2 Fixture.db_live
                  Fixture.bob (cascade_deleted 2 Fixture.db_live) eq_refl)).
  intros h claims Hh Hver. decode_header Hh Hver. discriminate.
Defined.


Lemma failed_login_writes_only_the_audit_row_witness :
  user (logged (failed_attempt (Some 1) "alice" Fixture.info "密码错误")
               Fixture.db_live) = user Fixture.db_live /\
  userSession (logged (failed_attempt (Some 1) "alice" Fixture.info "密码错误")
                      Fixture.db_live) = userSession Fixture.db_live /\
  userSeq (logged (failed_attempt (Some 1) "alice" Fixture.info "密码错误")
                  Fixture.db_live) = userSeq Fixture.db_live /\
  exists rows,
    userLoginLog (logged (failed_attempt (Some 1) "alice" Fixture.info
                                         "密码错误") Fixture.db_live)
      = (userLoginLog Fixture.db_live ++ rows)%list /\
    (List.length rows <= 1)%nat /\
    List.Forall (fun row => UserLoginLog.success row = false /\
                            UserLoginLog.username row = "alice") rows.
Proof.
  apply (failed_login_writes_only_the_audit_row
           (H:=Fixture.crypto) Fixture.env 2000000 "alice" "wrong"
           Fixture.info Fixture.db_live InvalidCredentials);
    [reflexivity | now left].
Defined.

Lemma login_alters_only_last_login_witness :
  List.map forget_last_login
    (user (logged_in 2000000 Fixture.alice "alice" "jwt.alice.s3cret" 24
                     Fixture.info Fixture.db))
    = List.map forget_last_login (user Fixture.db) /\
  userSeq (logged_in 2000000 Fixture.alice "alice" "jwt.alice.s3cret" 24
                     Fixture.info Fixture.db) = userSeq Fixture.db.
Proof.
  apply (login_alters_only_last_login
           (H:=Fixture.crypto) Fixture.env 2000000 "alice" "secret1"
           Fixture.info Fixture.db
           (mkLoginResult (identity_of Fixture.alice) "jwt.alice.s3cret")).
  reflexivity.
Defined.



Lemma createUser_keeps_names_unique_witness :
  names_unique
    (snd (UserModel.createUser (H:=Fixture.crypto) "salt"
            (UserData.mk (Js.str "carol") (Js.str "carol@x.com")
                         (Js.str "secret3") Js.undefined Js.undefined
                         Js.undefined) Fixture.db)).
Proof.
  apply (createUser_keeps_names_unique
           (H:=Fixture.crypto) "salt"
           (UserData.mk (Js.str "carol") (Js.str "carol@x.com")
                        (Js.str "secret3") Js.undefined Js.undefined
                        Js.undefined) Fixture.db
           (fst (UserModel.createUser (H:=Fixture.crypto) "salt"
                   (UserData.mk (Js.str "carol") (Js.str "carol@x.com")
                                (Js.str "secret3") Js.undefined Js.undefined
                                Js.undefined) Fixture.db))).
  - split; cbn;
      (constructor; [intros [Heq | []]; discriminate Heq |]);
      (constructor; [intros [] | constructor]).
  - reflexivity.
Defined.

Lemma create_user_accepts_blocked_without_remark_witness :
  exists row db',
    Handlers.create_user (H:=Fixture.crypto) "salt" (Js.str "eve")
      (Js.str "eve@x.com") (Js.str "secret9") Js.undefined Js.undefined
      (Js.str "blocked") Js.undefined Fixture.db =
      (Return (Http.mk 200 (Http.user_json row)), db') /\
    In row (user db') /\
    User.username row = "eve" /\
    User.status row = "blocked" /\
    User.disabledRemark row = None.
Proof.
  apply (create_user_accepts_blocked_without_remark (H:=Fixture.crypto));
    try reflexivity; try discriminate.
  vm_compute. lia.
Defined.

Lemma admin_cannot_delete_superadmin_witness :
  Handlers.delete_user None (identity_of Scenario.dana) "9" Scenario.db =
  (Return (Http.mk 403 (Http.envelope 403 "权限不足，无法删除超级管理员")),
   Scenario.db).
Proof.
  apply (admin_cannot_delete_superadmin
           None (identity_of Scenario.dana) "9" 9 Scenario.root Scenario.db);
    try reflexivity. discriminate.
Defined.

Lemma authenticated_session_end_to_end_witness :
  (exists row,
      Handlers.me (identity_of Fixture.alice) Fixture.db_live =
        (Return (Http.mk 200 (Http.user_json row)), Fixture.db_live) /\
      identity_of row = identity_of Fixture.alice) /\
  (exists db1,
      Handlers.logout (identity_of Fixture.alice) "jwt.alice.s3cret"
                      Fixture.db_live =
        (Return (Http.mk 200 (Http.envelope 200 "登出成功")), db1) /\
      authJWT (H:=Fixture.crypto) Fixture.env 2500000
              (Some "Bearer jwt.alice.s3cret") db1
        = (Return SessionRevoked, db1)) /\
  (exists db2,
      Handlers.logout_all (identity_of Fixture.alice) Fixture.db_live =
        (Return (Http.mk 200 (Http.envelope 200 "所有设备已登出")), db2) /\
      authJWT (H:=Fixture.crypto) Fixture.env 2500000
              (Some "Bearer jwt.alice.s3cret") db2
        = (Return SessionRevoked, db2)).
Proof.
  apply (authenticated_session_end_to_end
           (H:=Fixture.crypto) Fixture.env 2000000 2500000
           "Bearer jwt.alice.s3cret" Fixture.db_live
           (identity_of Fixture.alice) "jwt.alice.s3cret");
    reflexivity.
Defined.

Lemma add_product_twice_is_refused_witness :
  ProductModel.addUserProduct "2024-03-02T00:00:00.000Z" 1
    (Product.mkInfo (Product.num 7) (Js.str "lamp again")) Fixture.db
    (set_products 1
       [Scenario.book; Scenario.pen;
        Product.mk (Product.num 7) (Js.str "lamp") "2024-03-01T00:00:00.000Z"]
       Scenario.column)
    = (Throw (Exn.Error "产品已关联"),
       set_products 1
         [Scenario.book; Scenario.pen;
          Product.mk (Product.num 7) (Js.str "lamp")
                     "2024-03-01T00:00:00.000Z"]
         Scenario.column).
Proof.
  apply (add_product_twice_is_refused
           "2024-03-01T00:00:00.000Z" "2024-03-02T00:00:00.000Z" 1
           (Product.mkInfo (Product.num 7) (Js.str "lamp"))
           (Js.str "lamp again") Fixture.db Scenario.column
           (mkProductList 1 "alice"
              [Scenario.book; Scenario.pen;
               Product.mk (Product.num 7) (Js.str "lamp")
                          "2024-03-01T00:00:00.000Z"])).
  reflexivity.
Defined.

Lemma scenario_ids_distinct i :
  List.NoDup (List.map Product.id (Scenario.column i)).
Proof.
  unfold Scenario.column. destruct (Z.eqb i 1); cbn; [|constructor].
  constructor; [intros [Heq | []]; discriminate Heq |].
  constructor; [intros [] | constructor].
Defined.

Lemma product_ids_stay_distinct_witness :
  List.NoDup
    (List.map Product.id
       (snd (ProductModel.addUserProduct "2024-03-01T00:00:00.000Z" 1
               (Product.mkInfo (Product.num 7) (Js.str "lamp")) Fixture.db
               Scenario.column) 1)) /\
  List.NoDup
    (List.map Product.id
       (snd (ProductModel.removeUserProduct 1 (Product.str "pen") Fixture.db
               Scenario.column) 1)).
Proof.
  destruct (product_ids_stay_distinct
              "2024-03-01T00:00:00.000Z" 1
              (Product.mkInfo (Product.num 7) (Js.str "lamp"))
              (Product.str "pen") Fixture.db Scenario.column
              scenario_ids_distinct) as [Hadd Hremove].
  split; [apply Hadd | apply Hremove].
Defined.

Lemma add_then_remove_restores_witness :
  exists result' column2,
    ProductModel.removeUserProduct 1 (Product.num 7) Fixture.db
      (set_products 1
         [Scenario.book; Scenario.pen;
          Product.mk (Product.num 7) (Js.str "lamp")
                     "2024-03-01T00:00:00.000Z"]
         Scenario.column)
      = (Return result', column2) /\
    list_products result' = Scenario.column 1 /\
    forall i, column2 i = Scenario.column i.
Proof.
  apply (add_then_remove_restores
           "2024-03-01T00:00:00.000Z" 1
           (Product.mkInfo (Product.num 7) (Js.str "lamp")) Fixture.db
           Scenario.column
           (mkProductList 1 "alice"
              [Scenario.book; Scenario.pen;
               Product.mk (Product.num 7) (Js.str "lamp")
                          "2024-03-01T00:00:00.000Z"])).
  reflexivity.
Defined.

Lemma product_routes_keep_other_lists_witness :
  snd (ProductRoutes.add "2024-03-01T00:00:00.000Z"
         (identity_of Scenario.dana) "0x2"
         (Product.mkInfo (Product.num 7) (Js.str "lamp")) Fixture.db
         Scenario.column) 1 = Scenario.column 1 /\
  snd (ProductRoutes.remove (identity_of Scenario.dana) "0x2" "pen" Fixture.db
         Scenario.column) 1 = Scenario.column 1.
Proof.
  apply (product_routes_keep_other_lists
           "2024-03-01T00:00:00.000Z" (identity_of Scenario.dana) "0x2"
           (Product.mkInfo (Product.num 7) (Js.str "lamp")) "pen" Fixture.db
           Scenario.column 1).
  vm_compute. discriminate.
Defined.

Lemma remove_route_keeps_non_string_ids_witness :
  In Scenario.book
     (snd (ProductRoutes.remove (identity_of Fixture.alice) "1" "5"
                                Fixture.db Scenario.column) 1).
Proof.
  apply (remove_route_keeps_non_string_ids
           (identity_of Fixture.alice) "1" "5" Fixture.db Scenario.column 1
           Scenario.book).
  - left. reflexivity.
  - intros s. discriminate.
Defined.

Lemma update_never_blocks_without_remark_witness :
  exists response,
    Routes.update (H:=Fixture.crypto) "salt" Fixture.root "1"
      (UpdateData.mk Js.undefined Js.undefined Js.undefined Js.undefined
                     Js.undefined (Js.str "blocked") (Js.str "") Js.undefined)
      Fixture.db = (Return response, Fixture.db) /\
    Http.status response <> 200 /\
    (role Fixture.root <> "admin" ->
     Str.parseInt "1" <> None ->
     response = Http.mk 400 (Http.envelope 400 "禁用用户时必须添加备注")).
Proof.
  apply (update_never_blocks_without_remark (H:=Fixture.crypto));
    reflexivity.
Defined.

